(** * The Airtable Clone SDK for Python ([airtable_clone_sdk.py])

    A shallow embedding of the client library and the proofs of its
    request-dispatch, authentication and error-normalisation properties.

    The SDK is a thin layer over the [requests] HTTP library: every method
    builds one request, hands it to [requests.request] (or [requests.get])
    and turns the reply into a return value or an exception.  The remote
    service, the file system and Python's builtin [str] are outside the
    file; they are collected in the [Runtime] interface below and every
    theorem holds for all of its implementations. *)

From Stdlib Require Import String List ZArith Bool.
From Stdlib Require Import DecimalString.
From Stdlib Require Import Strings.Byte.
From Stdlib Require Import Floats.SpecFloat.
Import ListNotations.
Local Open Scope string_scope.
Local Open Scope list_scope.

Set Implicit Arguments.
Set Warnings "-register-all".

(** ** Python values *)

(** The values that [json.loads] produces and [json.dumps] accepts, plus
    [bytes].  A JSON object is a Python [dict]: an insertion-ordered list of
    bindings. *)
Inductive pyval : Type :=
| VNone
| VBool (b : bool)
| VInt (n : Z)
| VFloat (x : spec_float)
| VStr (s : string)
| VBytes (b : list byte)
| VList (l : list pyval)
| VDict (d : list (string * pyval)).

(** A [dict] with [str] keys.  A key is bound once; the operations below keep
    it so. *)
Definition dict (V : Type) : Type := list (string * V).

(** [d.get(k)] as an option: the binding of [k], if any. *)
Fixpoint dict_get {V : Type} (k : string) (d : dict V) : option V :=
  match d with
  | [] => None
  | (k', v) :: d' => if (k' =? k)%string then Some v else dict_get k d'
  end.

(** [d[k] = v]: overwrite the binding of [k] in place, or append a new one. *)
Fixpoint dict_set {V : Type} (k : string) (v : V) (d : dict V) : dict V :=
  match d with
  | [] => [(k, v)]
  | (k', v') :: d' =>
      if (k' =? k)%string then (k, v) :: d' else (k', v') :: dict_set k v d'
  end.

(** [d.update(other)]. *)
Definition dict_update {V : Type} (d other : dict V) : dict V :=
  fold_left (fun acc kv => dict_set (fst kv) (snd kv) acc) other d.

(** Truth-value testing, as done by [if x:], [x and y] and [not x]. *)
Class Truthy (A : Type) := truthy : A -> bool.

#[export] Instance truthy_string : Truthy string :=
  fun s => negb (s =? "")%string.

#[export] Instance truthy_list (A : Type) : Truthy (list A) :=
  fun l => match l with [] => false | _ :: _ => true end.

#[export] Instance truthy_dict (V : Type) : Truthy (dict V) :=
  fun d => match d with [] => false | _ :: _ => true end.

#[export] Instance truthy_option (A : Type) `{Truthy A} : Truthy (option A) :=
  fun o => match o with None => false | Some a => truthy a end.

#[export] Instance truthy_pyval : Truthy pyval :=
  fun v =>
    match v with
    | VNone => false
    | VBool b => b
    | VInt n => negb (n =? 0)%Z
    | VFloat (S754_zero _) => false
    | VFloat _ => true
    | VStr s => truthy s
    | VBytes b => truthy b
    | VList l => truthy l
    | VDict d => truthy d
    end.

(** ** The [requests] interface *)

(** A file opened with [open(path, "rb")]. *)
Record FileObj : Type := {
  file_name : string;
  file_data : list byte
}.

(** The keyword arguments of [requests.request].  [req_data] is the library's
    [data=] argument (form fields); the other names are the arguments the SDK
    passes. *)
Record Request : Type := {
  req_method : string;
  req_url : string;
  req_headers : dict string;
  req_data : option (dict pyval);
  req_json : option (dict pyval);
  req_files : option (dict FileObj);
  req_params : option (dict pyval)
}.

(** What the SDK observes of a [requests.Response]: [response.ok],
    [response.status_code], [response.content] and the outcome of
    [response.json()], which is [None] when the call raises. *)
Record Response : Type := {
  ok : bool;
  status_code : Z;
  content : list byte;
  json : option pyval
}.

(** The exceptions [requests] raises when no response is obtained. *)
Inductive RequestException : Type :=
| ConnectionError
| Timeout
| OtherRequestException (name : string).

Inductive Reply : Type :=
| Responded (r : Response)
| Failed (e : RequestException).

(** One round trip: the request handed to the transport and its reply. *)
Definition Exchange : Type := (Request * Reply)%type.

(** The exceptions of [open(path, "rb")] for a [str] path: an [OSError] of
    the operating system (no such file, no permission, a directory, ...) or
    the [ValueError] of a path that cannot be passed to it (an embedded null
    character). *)
Inductive OpenFailure : Type :=
| OpenOSError
| OpenValueError.

(** What lies outside the SDK. *)
Class Runtime : Type := {
  World : Type;
  (** [requests.request] *)
  requests_request : Request -> World -> Reply * World;
  (** [open(path, "rb")]; [None] when it raises *)
  builtin_open : string -> World -> option FileObj;
  (** the exception [open(path, "rb")] raises, when it raises *)
  builtin_open_failure : string -> World -> OpenFailure;
  (** [str(v)] for a value that is not a [str] *)
  builtin_str : pyval -> string
}.

(** The string an f-string field [{v}] expands to. *)
Definition format `{Runtime} (v : pyval) : string :=
  match v with
  | VStr s => s
  | _ => builtin_str v
  end.

(** ** Exceptions and the SDK's monad *)

Inductive Exn : Type :=
| APIError (message : pyval) (status : Z) (response : Response)
| TransportFailure (e : RequestException)  (* raised by [requests], propagated as is *)
| JSONDecodeError
| KeyError (key : string)
| TypeError
| AttributeError
| OSError (path : string)
| ValueError.

Inductive Result (A : Type) : Type :=
| Return (a : A)
| Raise (e : Exn).
Arguments Raise {A} e.

(** The client object.  [api_key] and [base_url] are only ever assigned by
    the constructor; [token] is also assigned by [Auth.login], from a decoded
    response, so it holds an arbitrary value. *)
Record AirtableCloneSDK : Type := {
  api_key : option string;
  token : pyval;
  base_url : string
}.

Definition default_base_url : string := "http://localhost:3000/api/v1".

Record State `{Runtime} : Type := {
  client : AirtableCloneSDK;
  world : World
}.

(** The outcome of a call: what it returned or raised, the state it left and
    the round trips it made, in order. *)
Record Outcome `{Runtime} (A : Type) : Type := {
  result : Result A;
  final : State;
  trace : list Exchange
}.

Definition M `{Runtime} (A : Type) : Type := State -> Outcome A.

Definition ret `{Runtime} {A : Type} (a : A) : M A :=
  fun s => {| result := Return a; final := s; trace := [] |}.

Definition raise `{Runtime} {A : Type} (e : Exn) : M A :=
  fun s => {| result := Raise e; final := s; trace := [] |}.

Definition bind `{Runtime} {A B : Type} (m : M A) (k : A -> M B) : M B :=
  fun s =>
    let o := m s in
    match result o with
    | Return a =>
        let o' := k a (final o) in
        {| result := result o'; final := final o'; trace := trace o ++ trace o' |}
    | Raise e =>
        {| result := Raise e; final := final o; trace := trace o |}
    end.

Declare Scope sdk_scope.
Delimit Scope sdk_scope with sdk.
Notation "x <- m ;; k" := (bind m (fun x => k))
  (at level 100, m at next level, right associativity) : sdk_scope.
Notation "m ;; k" := (bind m (fun _ => k))
  (at level 100, right associativity) : sdk_scope.
Local Open Scope sdk_scope.

(** Lift a pure computation that may raise. *)
Definition lift `{Runtime} {A : Type} (r : Result A) : M A :=
  match r with
  | Return a => ret a
  | Raise e => raise e
  end.

(** Read the client object. *)
Definition self `{Runtime} : M AirtableCloneSDK :=
  fun s => {| result := Return (client s); final := s; trace := [] |}.

(** [client.token = v] *)
Definition set_token `{Runtime} (v : pyval) : M unit :=
  fun s =>
    let c := client s in
    {| result := Return tt;
       final := {| client := {| api_key := api_key c; token := v; base_url := base_url c |};
                   world := world s |};
       trace := [] |}.

(** Hand a request to the transport. *)
Definition send `{Runtime} (req : Request) : M Response :=
  fun s =>
    let (reply, w) := requests_request req (world s) in
    {| result := match reply with
                 | Responded r => Return r
                 | Failed e => Raise (TransportFailure e)
                 end;
       final := {| client := client s; world := w |};
       trace := [(req, reply)] |}.

(** The exception a failure of [open(path, "rb")] raises. *)
Definition open_exception (path : string) (k : OpenFailure) : Exn :=
  match k with
  | OpenOSError => OSError path
  | OpenValueError => ValueError
  end.

(** [open(path, "rb")] *)
Definition open_rb `{Runtime} (path : string) : M FileObj :=
  fun s =>
    {| result := match builtin_open path (world s) with
                 | Some f => Return f
                 | None =>
                     Raise (open_exception path
                              (builtin_open_failure path (world s)))
                 end;
       final := s;
       trace := [] |}.

(** ** Pieces of [_request] shared with [export_csv] *)

(** [response.json()] *)
Definition response_json (r : Response) : Result pyval :=
  match json r with
  | Some v => Return v
  | None => Raise JSONDecodeError
  end.

(** [v.get(k, default)]: only a [dict] has the method. *)
Definition py_get (v : pyval) (k : string) (default : pyval) : Result pyval :=
  match v with
  | VDict d =>
      Return (match dict_get k d with Some x => x | None => default end)
  | _ => Raise AttributeError
  end.

(** [v[k]] for a [str] key. *)
Definition subscript (v : pyval) (k : string) : Result pyval :=
  match v with
  | VDict d =>
      match dict_get k d with
      | Some x => Return x
      | None => Raise (KeyError k)
      end
  | _ => Raise TypeError
  end.

Definition fallback_message : pyval := VStr "API request failed".

(** The [try: ... except: ...] block that computes [error_message]. *)
Definition error_message (response : Response) : pyval :=
  match response_json response with
  | Return error_data =>
      match py_get error_data "message" fallback_message with
      | Return m => m
      | Raise _ => fallback_message
      end
  | Raise _ => fallback_message
  end.

(** The [# Add authentication] block, written twice in the source.  The test
    [if self.api_key:] fails on [None] and on the empty string, so the inner
    [None] branch is never taken. *)
Definition add_authentication `{Runtime} (c : AirtableCloneSDK)
  (headers : dict string) : dict string :=
  if truthy (api_key c) then
    match api_key c with
    | Some k => dict_set "X-API-Key" k headers
    | None => headers
    end
  else if truthy (token c) then
    dict_set "Authorization" ("Bearer " ++ format (token c))%string headers
  else headers.

(** The [# Handle errors] block, written twice in the source. *)
Definition handle_errors `{Runtime} (response : Response) : M unit :=
  if negb (ok response) then
    raise (APIError (error_message response) (status_code response) response)
  else ret tt.

(** ** [AirtableCloneSDK._request] *)

Definition _request `{Runtime} (method path : string)
  (data : option (dict pyval)) (files : option (dict FileObj))
  (params : option (dict pyval)) : M pyval :=
  c <- self ;;
  let url := (base_url c ++ path)%string in
  let headers := add_authentication c [] in
  let headers :=
    if truthy data && negb (truthy files)
    then dict_set "Content-Type" "application/json" headers
    else headers in
  response <- send {| req_method := method;
                      req_url := url;
                      req_headers := headers;
                      req_data := None;
                      req_json := if truthy data && negb (truthy files)
                                  then data else None;
                      req_files := files;
                      req_params := params |} ;;
  handle_errors response ;;
  lift (response_json response).

(** ** The resource classes

    One module per class of the source; every method takes the arguments of
    the Python method, in the same order. *)

Module Auth.

Definition login `{Runtime} (email password : string) : M pyval :=
  response <- _request "POST" "/auth/login"
                (Some [("email", VStr email); ("password", VStr password)])
                None None ;;
  d <- lift (subscript response "data") ;;
  t <- lift (subscript d "token") ;;
  set_token t ;;
  ret response.

Definition register `{Runtime} (user_data : dict pyval) : M pyval :=
  _request "POST" "/auth/register" (Some user_data) None None.

Definition get_profile `{Runtime} : M pyval :=
  _request "GET" "/auth/profile" None None None.

Definition create_api_key `{Runtime} (api_key_data : dict pyval) : M pyval :=
  _request "POST" "/auth/api-keys" (Some api_key_data) None None.

Definition list_api_keys `{Runtime} : M pyval :=
  _request "GET" "/auth/api-keys" None None None.

Definition delete_api_key `{Runtime} (api_key_id : string) : M pyval :=
  _request "DELETE" ("/auth/api-keys/" ++ api_key_id)%string None None None.

End Auth.

Module Bases.

Definition create `{Runtime} (base_data : dict pyval) : M pyval :=
  _request "POST" "/bases" (Some base_data) None None.

Definition list `{Runtime} : M pyval :=
  _request "GET" "/bases" None None None.

Definition get `{Runtime} (base_id : string) : M pyval :=
  _request "GET" ("/bases/" ++ base_id)%string None None None.

Definition update `{Runtime} (base_id : string) (base_data : dict pyval) : M pyval :=
  _request "PATCH" ("/bases/" ++ base_id)%string (Some base_data) None None.

Definition delete `{Runtime} (base_id : string) : M pyval :=
  _request "DELETE" ("/bases/" ++ base_id)%string None None None.

Definition share `{Runtime} (base_id : string) (share_data : dict pyval) : M pyval :=
  _request "POST" ("/bases/" ++ base_id ++ "/share")%string (Some share_data) None None.

End Bases.

Module Tables.

Definition create `{Runtime} (table_data : dict pyval) : M pyval :=
  _request "POST" "/tables" (Some table_data) None None.

Definition list `{Runtime} (base_id : string) : M pyval :=
  _request "GET" ("/bases/" ++ base_id ++ "/tables")%string None None None.

Definition get `{Runtime} (table_id : string) : M pyval :=
  _request "GET" ("/tables/" ++ table_id)%string None None None.

Definition update `{Runtime} (table_id : string) (table_data : dict pyval) : M pyval :=
  _request "PATCH" ("/tables/" ++ table_id)%string (Some table_data) None None.

Definition delete `{Runtime} (table_id : string) : M pyval :=
  _request "DELETE" ("/tables/" ++ table_id)%string None None None.

End Tables.

Module Records.

Definition create `{Runtime} (table_id : string) (record_data : dict pyval) : M pyval :=
  _request "POST" ("/tables/" ++ table_id ++ "/records")%string
    (Some record_data) None None.

Definition list `{Runtime} (table_id : string)
  (query_params : option (dict pyval)) : M pyval :=
  _request "GET" ("/tables/" ++ table_id ++ "/records")%string
    None None query_params.

Definition get `{Runtime} (table_id record_id : string) : M pyval :=
  _request "GET" ("/tables/" ++ table_id ++ "/records/" ++ record_id)%string
    None None None.

Definition update `{Runtime} (table_id record_id : string)
  (record_data : dict pyval) : M pyval :=
  _request "PATCH" ("/tables/" ++ table_id ++ "/records/" ++ record_id)%string
    (Some record_data) None None.

Definition delete `{Runtime} (table_id record_id : string) : M pyval :=
  _request "DELETE" ("/tables/" ++ table_id ++ "/records/" ++ record_id)%string
    None None None.

Definition bulk_create `{Runtime} (table_id : string)
  (records : Datatypes.list pyval) : M pyval :=
  _request "POST" ("/tables/" ++ table_id ++ "/records/bulk")%string
    (Some [("records", VList records)]) None None.

Definition bulk_update `{Runtime} (table_id : string)
  (records : Datatypes.list pyval) : M pyval :=
  _request "PATCH" ("/tables/" ++ table_id ++ "/records/bulk")%string
    (Some [("records", VList records)]) None None.

Definition bulk_delete `{Runtime} (table_id : string)
  (record_ids : Datatypes.list string) : M pyval :=
  _request "DELETE" ("/tables/" ++ table_id ++ "/records/bulk")%string
    (Some [("recordIds", VList (map VStr record_ids))]) None None.

End Records.

Module Fields.

Definition create `{Runtime} (table_id : string) (field_data : dict pyval) : M pyval :=
  _request "POST" ("/tables/" ++ table_id ++ "/fields")%string
    (Some field_data) None None.

Definition list `{Runtime} (table_id : string) : M pyval :=
  _request "GET" ("/tables/" ++ table_id ++ "/fields")%string None None None.

Definition get `{Runtime} (table_id field_id : string) : M pyval :=
  _request "GET" ("/tables/" ++ table_id ++ "/fields/" ++ field_id)%string
    None None None.

Definition update `{Runtime} (table_id field_id : string)
  (field_data : dict pyval) : M pyval :=
  _request "PATCH" ("/tables/" ++ table_id ++ "/fields/" ++ field_id)%string
    (Some field_data) None None.

Definition delete `{Runtime} (table_id field_id : string) : M pyval :=
  _request "DELETE" ("/tables/" ++ table_id ++ "/fields/" ++ field_id)%string
    None None None.

End Fields.

Module Views.

Definition create `{Runtime} (table_id : string) (view_data : dict pyval) : M pyval :=
  _request "POST" ("/tables/" ++ table_id ++ "/views")%string
    (Some view_data) None None.

Definition list `{Runtime} (table_id : string) : M pyval :=
  _request "GET" ("/tables/" ++ table_id ++ "/views")%string None None None.

Definition get `{Runtime} (table_id view_id : string) : M pyval :=
  _request "GET" ("/tables/" ++ table_id ++ "/views/" ++ view_id)%string
    None None None.

Definition update `{Runtime} (table_id view_id : string)
  (view_data : dict pyval) : M pyval :=
  _request "PATCH" ("/tables/" ++ table_id ++ "/views/" ++ view_id)%string
    (Some view_data) None None.

Definition delete `{Runtime} (table_id view_id : string) : M pyval :=
  _request "DELETE" ("/tables/" ++ table_id ++ "/views/" ++ view_id)%string
    None None None.

End Views.

Module Webhooks.

Definition create `{Runtime} (webhook_data : dict pyval) : M pyval :=
  _request "POST" "/webhooks" (Some webhook_data) None None.

Definition list `{Runtime} (base_id : string) : M pyval :=
  _request "GET" ("/webhooks/base/" ++ base_id)%string None None None.

Definition get `{Runtime} (webhook_id : string) : M pyval :=
  _request "GET" ("/webhooks/" ++ webhook_id)%string None None None.

Definition update `{Runtime} (webhook_id : string)
  (webhook_data : dict pyval) : M pyval :=
  _request "PATCH" ("/webhooks/" ++ webhook_id)%string (Some webhook_data) None None.

Definition delete `{Runtime} (webhook_id : string) : M pyval :=
  _request "DELETE" ("/webhooks/" ++ webhook_id)%string None None None.

Definition toggle_active `{Runtime} (webhook_id : string) (active : bool) : M pyval :=
  _request "PATCH" ("/webhooks/" ++ webhook_id ++ "/active")%string
    (Some [("active", VBool active)]) None None.

(** [limit] defaults to 50 in the source. *)
Definition get_deliveries `{Runtime} (webhook_id : string) (limit : Z) : M pyval :=
  _request "GET" ("/webhooks/" ++ webhook_id ++ "/deliveries")%string
    None None (Some [("limit", VInt limit)]).

End Webhooks.

Module Search.

Definition global_search `{Runtime} (query : string)
  (options : option (dict pyval)) : M pyval :=
  let params := [("query", VStr query)] in
  let params :=
    match options with
    | Some o => if truthy o then dict_update params o else params
    | None => params
    end in
  _request "GET" "/search" None None (Some params).

Definition base_search `{Runtime} (base_id query : string)
  (options : option (dict pyval)) : M pyval :=
  let params := [("query", VStr query)] in
  let params :=
    match options with
    | Some o => if truthy o then dict_update params o else params
    | None => params
    end in
  _request "GET" ("/search/base/" ++ base_id)%string None None (Some params).

Definition table_search `{Runtime} (table_id query : string)
  (options : option (dict pyval)) : M pyval :=
  let params := [("query", VStr query)] in
  let params :=
    match options with
    | Some o => if truthy o then dict_update params o else params
    | None => params
    end in
  _request "GET" ("/search/table/" ++ table_id)%string None None (Some params).

End Search.

Module ImportExport.

Definition import_csv `{Runtime} (table_id csv_file_path : string)
  (options : option (dict pyval)) : M pyval :=
  f <- open_rb csv_file_path ;;
  let files := [("file", f)] in
  _request "POST" ("/import/csv/" ++ table_id)%string options (Some files) None.

(** [requests.get(url, headers=headers, params=options)] is the library's
    shorthand for a GET request. *)
Definition export_csv `{Runtime} (table_id : string)
  (options : option (dict pyval)) : M pyval :=
  c <- self ;;
  let url := (base_url c ++ "/export/csv/" ++ table_id)%string in
  let headers := add_authentication c [] in
  response <- send {| req_method := "GET";
                      req_url := url;
                      req_headers := headers;
                      req_data := None;
                      req_json := None;
                      req_files := None;
                      req_params := options |} ;;
  handle_errors response ;;
  ret (VBytes (content response)).

End ImportExport.

(** ** The SDK's operations

    One constructor per public method of the nine resource classes, and
    [call], which invokes it. *)

Inductive Op : Type :=
| AuthLogin (email password : string)
| AuthRegister (user_data : dict pyval)
| AuthGetProfile
| AuthCreateApiKey (api_key_data : dict pyval)
| AuthListApiKeys
| AuthDeleteApiKey (api_key_id : string)
| BasesCreate (base_data : dict pyval)
| BasesList
| BasesGet (base_id : string)
| BasesUpdate (base_id : string) (base_data : dict pyval)
| BasesDelete (base_id : string)
| BasesShare (base_id : string) (share_data : dict pyval)
| TablesCreate (table_data : dict pyval)
| TablesList (base_id : string)
| TablesGet (table_id : string)
| TablesUpdate (table_id : string) (table_data : dict pyval)
| TablesDelete (table_id : string)
| RecordsCreate (table_id : string) (record_data : dict pyval)
| RecordsList (table_id : string) (query_params : option (dict pyval))
| RecordsGet (table_id record_id : string)
| RecordsUpdate (table_id record_id : string) (record_data : dict pyval)
| RecordsDelete (table_id record_id : string)
| RecordsBulkCreate (table_id : string) (records : list pyval)
| RecordsBulkUpdate (table_id : string) (records : list pyval)
| RecordsBulkDelete (table_id : string) (record_ids : list string)
| FieldsCreate (table_id : string) (field_data : dict pyval)
| FieldsList (table_id : string)
| FieldsGet (table_id field_id : string)
| FieldsUpdate (table_id field_id : string) (field_data : dict pyval)
| FieldsDelete (table_id field_id : string)
| ViewsCreate (table_id : string) (view_data : dict pyval)
| ViewsList (table_id : string)
| ViewsGet (table_id view_id : string)
| ViewsUpdate (table_id view_id : string) (view_data : dict pyval)
| ViewsDelete (table_id view_id : string)
| WebhooksCreate (webhook_data : dict pyval)
| WebhooksList (base_id : string)
| WebhooksGet (webhook_id : string)
| WebhooksUpdate (webhook_id : string) (webhook_data : dict pyval)
| WebhooksDelete (webhook_id : string)
| WebhooksToggleActive (webhook_id : string) (active : bool)
| WebhooksGetDeliveries (webhook_id : string) (limit : Z)
| SearchGlobal (query : string) (options : option (dict pyval))
| SearchBase (base_id query : string) (options : option (dict pyval))
| SearchTable (table_id query : string) (options : option (dict pyval))
| ImportCsv (table_id csv_file_path : string) (options : option (dict pyval))
| ExportCsv (table_id : string) (options : option (dict pyval)).

Definition call `{Runtime} (op : Op) : M pyval :=
  match op with
  | AuthLogin email password => Auth.login email password
  | AuthRegister user_data => Auth.register user_data
  | AuthGetProfile => Auth.get_profile
  | AuthCreateApiKey api_key_data => Auth.create_api_key api_key_data
  | AuthListApiKeys => Auth.list_api_keys
  | AuthDeleteApiKey api_key_id => Auth.delete_api_key api_key_id
  | BasesCreate base_data => Bases.create base_data
  | BasesList => Bases.list
  | BasesGet base_id => Bases.get base_id
  | BasesUpdate base_id base_data => Bases.update base_id base_data
  | BasesDelete base_id => Bases.delete base_id
  | BasesShare base_id share_data => Bases.share base_id share_data
  | TablesCreate table_data => Tables.create table_data
  | TablesList base_id => Tables.list base_id
  | TablesGet table_id => Tables.get table_id
  | TablesUpdate table_id table_data => Tables.update table_id table_data
  | TablesDelete table_id => Tables.delete table_id
  | RecordsCreate table_id record_data => Records.create table_id record_data
  | RecordsList table_id query_params => Records.list table_id query_params
  | RecordsGet table_id record_id => Records.get table_id record_id
  | RecordsUpdate table_id record_id record_data =>
      Records.update table_id record_id record_data
  | RecordsDelete table_id record_id => Records.delete table_id record_id
  | RecordsBulkCreate table_id records => Records.bulk_create table_id records
  | RecordsBulkUpdate table_id records => Records.bulk_update table_id records
  | RecordsBulkDelete table_id record_ids => Records.bulk_delete table_id record_ids
  | FieldsCreate table_id field_data => Fields.create table_id field_data
  | FieldsList table_id => Fields.list table_id
  | FieldsGet table_id field_id => Fields.get table_id field_id
  | FieldsUpdate table_id field_id field_data =>
      Fields.update table_id field_id field_data
  | FieldsDelete table_id field_id => Fields.delete table_id field_id
  | ViewsCreate table_id view_data => Views.create table_id view_data
  | ViewsList table_id => Views.list table_id
  | ViewsGet table_id view_id => Views.get table_id view_id
  | ViewsUpdate table_id view_id view_data => Views.update table_id view_id view_data
  | ViewsDelete table_id view_id => Views.delete table_id view_id
  | WebhooksCreate webhook_data => Webhooks.create webhook_data
  | WebhooksList base_id => Webhooks.list base_id
  | WebhooksGet webhook_id => Webhooks.get webhook_id
  | WebhooksUpdate webhook_id webhook_data => Webhooks.update webhook_id webhook_data
  | WebhooksDelete webhook_id => Webhooks.delete webhook_id
  | WebhooksToggleActive webhook_id active => Webhooks.toggle_active webhook_id active
  | WebhooksGetDeliveries webhook_id limit => Webhooks.get_deliveries webhook_id limit
  | SearchGlobal query options => Search.global_search query options
  | SearchBase base_id query options => Search.base_search base_id query options
  | SearchTable table_id query options => Search.table_search table_id query options
  | ImportCsv table_id csv_file_path options =>
      ImportExport.import_csv table_id csv_file_path options
  | ExportCsv table_id options => ImportExport.export_csv table_id options
  end.

Definition is_login (op : Op) : bool :=
  match op with AuthLogin _ _ => true | _ => false end.

Definition is_export_csv (op : Op) : bool :=
  match op with ExportCsv _ _ => true | _ => false end.

(** A caller making several calls in a row, going on after an exception:
    the state each call leaves is the state the next one starts from. *)
Fixpoint call_all `{Runtime} (ops : list Op) (s : State) : State * list Exchange :=
  match ops with
  | [] => (s, [])
  | op :: ops' =>
      let o := call op s in
      let (s', t) := call_all ops' (final o) in
      (s', trace o ++ t)
  end.

(** ** What a request carries *)

Definition request_of (x : Exchange) : Request := fst x.

(** The requests a call dispatched, in order. *)
Definition dispatched `{Runtime} {A : Type} (o : Outcome A) : list Request :=
  map request_of (trace o).

(** The request carries header [name: value]. *)
Definition carries (req : Request) (name value : string) : Prop :=
  dict_get name (req_headers req) = Some value.

(** The request has no header [name]. *)
Definition lacks (req : Request) (name : string) : Prop :=
  dict_get name (req_headers req) = None.

(** ** A scripted runtime

    The transport replies with the next entry of a script and fails with
    [ConnectionError] once the script is exhausted; one file exists, and a
    path with a null character in it is refused with [ValueError]. *)

Definition csv_bytes : list byte := [x61; x2c; x62; x0a; x31; x2c; x32; x0a].

Definition scripted_open (path : string) (w : list Reply) : option FileObj :=
  if (path =? "data.csv")%string
  then Some {| file_name := path; file_data := csv_bytes |}
  else None.

(** The path has a null character in it. *)
Fixpoint has_null (path : string) : bool :=
  match path with
  | EmptyString => false
  | String c rest => Ascii.eqb c Ascii.zero || has_null rest
  end.

Definition scripted_open_failure (path : string) (w : list Reply) : OpenFailure :=
  if has_null path then OpenValueError else OpenOSError.

Definition scripted_request (req : Request) (w : list Reply) : Reply * list Reply :=
  match w with
  | [] => (Failed ConnectionError, [])
  | r :: w' => (r, w')
  end.

(** [str(v)] where it is plain: on [None], booleans, integers, strings and
    the floats that are zero, infinite or not a number.  The digits of the
    other floats and the [repr] of bytes, lists and dicts are not modelled:
    there the string is left empty, and no run of this file formats such a
    value. *)
Definition scripted_str (v : pyval) : string :=
  match v with
  | VNone => "None"
  | VBool true => "True"
  | VBool false => "False"
  | VInt n => NilZero.string_of_int (Z.to_int n)
  | VStr s => s
  | VFloat (S754_zero false) => "0.0"
  | VFloat (S754_zero true) => "-0.0"
  | VFloat (S754_infinity false) => "inf"
  | VFloat (S754_infinity true) => "-inf"
  | VFloat S754_nan => "nan"
  | _ => ""
  end.

Definition scripted : Runtime := {|
  World := list Reply;
  requests_request := scripted_request;
  builtin_open := scripted_open;
  builtin_open_failure := scripted_open_failure;
  builtin_str := scripted_str
|}.

(** A state of the scripted runtime: a client object and the replies to
    come. *)
Definition start (c : AirtableCloneSDK) (script : list Reply) : @State scripted :=
  @Build_State scripted c script.

Definition anonymous : AirtableCloneSDK :=
  {| api_key := None; token := VNone; base_url := default_base_url |}.

Definition both_credentials : AirtableCloneSDK :=
  {| api_key := Some "key-1"; token := VStr "T0"; base_url := default_base_url |}.

Definition token_only : AirtableCloneSDK :=
  {| api_key := None; token := VStr "T0"; base_url := default_base_url |}.

(** 200 with a body that decodes to [v]. *)
Definition json_ok (v : pyval) : Response :=
  {| ok := true; status_code := 200; content := []; json := Some v |}.

(** 200 with a CSV body, which is not JSON. *)
Definition csv_ok : Response :=
  {| ok := true; status_code := 200; content := csv_bytes; json := None |}.

(** 404 with body [{"message": "not found"}]. *)
Definition not_found : Response :=
  {| ok := false; status_code := 404; content := [];
     json := Some (VDict [("message", VStr "not found")]) |}.

(** 500 with a body that is not JSON. *)
Definition server_error : Response :=
  {| ok := false; status_code := 500; content := [x6f; x6f; x70; x73];
     json := None |}.

Definition token_body (t : string) : pyval :=
  VDict [("data", VDict [("token", VStr t)])].

(** 204 with an empty body, which does not decode. *)
Definition no_content : Response :=
  {| ok := true; status_code := 204; content := []; json := None |}.

(** The status codes for which [requests] reports [response.ok] as [False]:
    the client and server errors, 400 to 599. *)
Definition error_status (code : Z) : bool :=
  (400 <=? code)%Z && (code <? 600)%Z.

(** 304 with an empty body: not a 2xx status, and [ok] for [requests]. *)
Definition not_modified : Response :=
  {| ok := negb (error_status 304); status_code := 304; content := [];
     json := None |}.

(** A path with a null character in it. *)
Definition null_path : string := ("a" ++ String Ascii.zero "b.csv")%string.

(** ** Vocabulary of the statements *)

(** The keyword arguments [_request] passes to [requests.request] when the
    client object is [c]. *)
Definition request_kwargs `{Runtime} (c : AirtableCloneSDK) (method path : string)
  (data : option (dict pyval)) (files : option (dict FileObj))
  (params : option (dict pyval)) : Request :=
  {| req_method := method;
     req_url := (base_url c ++ path)%string;
     req_headers :=
       if truthy data && negb (truthy files)
       then dict_set "Content-Type" "application/json" (add_authentication c [])
       else add_authentication c [];
     req_data := None;
     req_json := if truthy data && negb (truthy files) then data else None;
     req_files := files;
     req_params := params |}.

(** The keyword arguments [export_csv] passes to [requests.get]. *)
Definition export_kwargs `{Runtime} (c : AirtableCloneSDK) (table_id : string)
  (options : option (dict pyval)) : Request :=
  {| req_method := "GET";
     req_url := (base_url c ++ "/export/csv/" ++ table_id)%string;
     req_headers := add_authentication c [];
     req_data := None;
     req_json := None;
     req_files := None;
     req_params := options |}.

(** What a call makes of the transport's reply, given what it does with a
    success response. *)
Definition settle (on_success : Response -> Result pyval) (reply : Reply) : Result pyval :=
  match reply with
  | Failed e => Raise (TransportFailure e)
  | Responded r =>
      if ok r then on_success r
      else Raise (APIError (error_message r) (status_code r) r)
  end.

(** [response["data"]["token"]] *)
Definition data_token (response : pyval) : Result pyval :=
  match subscript response "data" with
  | Return d => subscript d "token"
  | Raise e => Raise e
  end.

(** The client object after [client.token = v]. *)
Definition with_token (v : pyval) (c : AirtableCloneSDK) : AirtableCloneSDK :=
  {| api_key := api_key c; token := v; base_url := base_url c |}.

(** The token [login] stores on a reply, if it stores one. *)
Definition stored_token (reply : Reply) : option pyval :=
  match reply with
  | Responded r =>
      if ok r then
        match response_json r with
        | Return v => match data_token v with Return t => Some t | Raise _ => None end
        | Raise _ => None
        end
      else None
  | Failed _ => None
  end.

(** What [login] returns on a success response. *)
Definition login_success (r : Response) : Result pyval :=
  match response_json r with
  | Return v => match data_token v with Return _ => Return v | Raise e => Raise e end
  | Raise e => Raise e
  end.

(** The authentication headers the block [# Add authentication] decides on. *)
Definition authenticated `{Runtime} (c : AirtableCloneSDK) (req : Request) : Prop :=
  match api_key c with
  | Some k =>
      if truthy k then carries req "X-API-Key" k /\ lacks req "Authorization"
      else if truthy (token c)
           then carries req "Authorization" ("Bearer " ++ format (token c))
                /\ lacks req "X-API-Key"
           else lacks req "X-API-Key" /\ lacks req "Authorization"
  | None =>
      if truthy (token c)
      then carries req "Authorization" ("Bearer " ++ format (token c))
           /\ lacks req "X-API-Key"
      else lacks req "X-API-Key" /\ lacks req "Authorization"
  end.

(** What each operation does with a success response. *)
Definition on_success (op : Op) : Response -> Result pyval :=
  match op with
  | ExportCsv _ _ => fun r => Return (VBytes (content r))
  | AuthLogin _ _ => login_success
  | _ => response_json
  end.

(** The client object an operation leaves behind, given the reply it got. *)
Definition client_after (op : Op) (reply : Reply) (c : AirtableCloneSDK) : AirtableCloneSDK :=
  if is_login op then
    match stored_token reply with
    | Some t => with_token t c
    | None => c
    end
  else c.

(** The requests the SDK builds for a client object [c]. *)
Inductive built `{Runtime} (c : AirtableCloneSDK) : Request -> Prop :=
| built_request method path data files params :
    built c (request_kwargs c method path data files params)
| built_export table_id options :
    built c (export_kwargs c table_id options).

(** The outcome of an operation that reaches the transport with [req]. *)
Definition round_trip `{Runtime} (op : Op) (req : Request) (s : State) : Outcome pyval :=
  let rw := requests_request req (world s) in
  {| result := settle (on_success op) (fst rw);
     final := {| client := client_after op (fst rw) (client s); world := snd rw |};
     trace := [(req, fst rw)] |}.

(** The outcome of [import_csv] when the file cannot be opened. *)
Definition not_opened `{Runtime} (path : string) (s : State) : Outcome pyval :=
  {| result := Raise (open_exception path (builtin_open_failure path (world s)));
     final := s; trace := [] |}.

(** ** Further vocabulary *)

(** [AirtableCloneSDK.__init__]: the arguments are stored as given. *)
Definition __init__ (key tok : option string) (url : string) : AirtableCloneSDK :=
  Build_AirtableCloneSDK key
    (match tok with Some t => VStr t | None => VNone end) url.

(** The mapping an operation receives from its caller and forwards to
    [_request] as [data] (the arguments named [..._data] in the source). *)
Definition data_argument (op : Op) : option (dict pyval) :=
  match op with
  | AuthRegister d | AuthCreateApiKey d
  | BasesCreate d | BasesUpdate _ d | BasesShare _ d
  | TablesCreate d | TablesUpdate _ d
  | RecordsCreate _ d | RecordsUpdate _ _ d
  | FieldsCreate _ d | FieldsUpdate _ _ d
  | ViewsCreate _ d | ViewsUpdate _ _ d
  | WebhooksCreate d | WebhooksUpdate _ d => Some d
  | _ => None
  end.

(** The [query] and [options] arguments of the three search methods. *)
Definition search_arguments (op : Op) : option (string * option (dict pyval)) :=
  match op with
  | SearchGlobal q o | SearchBase _ q o | SearchTable _ q o => Some (q, o)
  | _ => None
  end.

(** The header names the SDK ever writes. *)
Definition sdk_headers : list string :=
  ["X-API-Key"; "Authorization"; "Content-Type"].

(** The keys of a [dict], in order. *)
Definition keys {V : Type} (d : dict V) : list string := map fst d.


Unset Implicit Arguments.

(** ** Equations of the dispatcher *)

Section Dispatcher.

Context `{Runtime}.

Lemma request_eq (method path : string) (data : option (dict pyval))
  (files : option (dict FileObj)) (params : option (dict pyval)) (s : State) :
  _request method path data files params s =
  let req := request_kwargs (client s) method path data files params in
  let rw := requests_request req (world s) in
  {| result := settle response_json (fst rw);
     final := {| client := client s; world := snd rw |};
     trace := [(req, fst rw)] |}.
Proof.
  unfold _request, request_kwargs, bind, self, send, handle_errors; cbn.
  destruct (requests_request _ (world s)) as [reply w]; cbn.
  destruct reply as [r | e]; cbn; [| reflexivity].
  destruct (ok r); cbn; [| reflexivity].
  unfold lift; destruct (response_json r); reflexivity.
Qed.

Lemma export_csv_eq (table_id : string) (options : option (dict pyval)) (s : State) :
  ImportExport.export_csv table_id options s =
  let req := export_kwargs (client s) table_id options in
  let rw := requests_request req (world s) in
  {| result := settle (fun r => Return (VBytes (content r))) (fst rw);
     final := {| client := client s; world := snd rw |};
     trace := [(req, fst rw)] |}.
Proof.
  unfold ImportExport.export_csv, export_kwargs, bind, self, send, handle_errors; cbn.
  destruct (requests_request _ (world s)) as [reply w]; cbn.
  destruct reply as [r | e]; cbn; [| reflexivity].
  destruct (ok r); reflexivity.
Qed.

Lemma login_eq (email password : string) (s : State) :
  Auth.login email password s =
  let req := request_kwargs (client s) "POST" "/auth/login"
               (Some [("email", VStr email); ("password", VStr password)])
               None None in
  let rw := requests_request req (world s) in
  {| result := settle login_success (fst rw);
     final := {| client := match stored_token (fst rw) with
                           | Some t => with_token t (client s)
                           | None => client s
                           end;
                 world := snd rw |};
     trace := [(req, fst rw)] |}.
Proof.
  unfold Auth.login, bind. rewrite request_eq. cbn.
  destruct (requests_request _ (world s)) as [reply w]; cbn.
  destruct reply as [r | e]; cbn; [| reflexivity].
  unfold login_success, data_token.
  destruct (ok r); cbn; [| reflexivity].
  destruct (response_json r) as [v | e]; cbn; [| reflexivity].
  destruct (subscript v "data") as [d | e]; cbn; [| reflexivity].
  destruct (subscript d "token") as [t | e]; reflexivity.
Qed.

Lemma import_csv_eq (table_id csv_file_path : string)
  (options : option (dict pyval)) (s : State) :
  ImportExport.import_csv table_id csv_file_path options s =
  match builtin_open csv_file_path (world s) with
  | Some f =>
      _request "POST" ("/import/csv/" ++ table_id)%string options
        (Some [("file", f)]) None s
  | None =>
      not_opened csv_file_path s
  end.
Proof.
  unfold ImportExport.import_csv, bind, open_rb; cbn -[_request].
  destruct (builtin_open csv_file_path (world s)) as [f |]; cbn -[_request];
    [| reflexivity].
  destruct (_request _ _ _ _ _ s); reflexivity.
Qed.

End Dispatcher.

(** ** Every operation is one round trip *)

Section RoundTrip.

Context `{Runtime}.

Ltac plain_request :=
  right; eexists; split;
  [ apply built_request
  | unfold round_trip; rewrite request_eq; reflexivity ].

Lemma call_shape (op : Op) (s : State) :
  (exists table_id path options,
      op = ImportCsv table_id path options /\
      builtin_open path (world s) = None /\
      call op s = not_opened path s)
  \/
  (exists req, built (client s) req /\ call op s = round_trip op req s).
Proof.
  destruct op; cbn [call];
    try (unfold Auth.register, Auth.get_profile, Auth.create_api_key,
           Auth.list_api_keys, Auth.delete_api_key,
           Bases.create, Bases.list, Bases.get, Bases.update, Bases.delete,
           Bases.share,
           Tables.create, Tables.list, Tables.get, Tables.update, Tables.delete,
           Records.create, Records.list, Records.get, Records.update,
           Records.delete, Records.bulk_create, Records.bulk_update,
           Records.bulk_delete,
           Fields.create, Fields.list, Fields.get, Fields.update, Fields.delete,
           Views.create, Views.list, Views.get, Views.update, Views.delete,
           Webhooks.create, Webhooks.list, Webhooks.get, Webhooks.update,
           Webhooks.delete, Webhooks.toggle_active, Webhooks.get_deliveries,
           Search.global_search, Search.base_search, Search.table_search;
         plain_request).
  - (* login *)
    right; eexists; split; [apply built_request |].
    unfold round_trip; rewrite login_eq; reflexivity.
  - (* import_csv *)
    rewrite import_csv_eq.
    destruct (builtin_open csv_file_path (world s)) as [f |] eqn:Hopen.
    + plain_request.
    + left; exists table_id, csv_file_path, options; repeat split; assumption.
  - (* export_csv *)
    right; eexists; split; [apply built_export |].
    unfold round_trip; rewrite export_csv_eq; reflexivity.
Qed.

(** The trace of a call has at most one exchange. *)
Lemma call_trace (op : Op) (s : State) (x : Exchange) :
  In x (trace (call op s)) -> trace (call op s) = [x].
Proof.
  destruct (call_shape op s) as [(t & p & o & _ & _ & E) | (req & _ & E)];
    rewrite E; cbn.
  - intros [].
  - intros [<- | []]; reflexivity.
Qed.

End RoundTrip.

(** ** Authentication headers *)

Section Authentication.

Context `{Runtime}.

Lemma format_str (s : string) : format (VStr s) = s.
Proof. reflexivity. Qed.

Lemma dispatched_built (op : Op) (s : State) (req : Request) :
  In req (dispatched (call op s)) -> built (client s) req.
Proof.
  unfold dispatched.
  destruct (call_shape op s) as [(t & p & o & _ & _ & E) | (req0 & Hb & E)];
    rewrite E; cbn.
  - intros [].
  - intros [<- | []]; exact Hb.
Qed.

Lemma built_authenticated (c : AirtableCloneSDK) (req : Request) :
  built c req -> authenticated c req.
Proof.
  intros Hb; unfold authenticated.
  destruct Hb as [method path data files params | table_id options];
    unfold carries, lacks, request_kwargs, export_kwargs, add_authentication;
    cbn [req_headers];
    destruct (api_key c) as [k |]; cbn [truthy truthy_option];
    try destruct (truthy k); try destruct (truthy (token c));
    try destruct (truthy data && negb (truthy files));
    cbn; auto.
Qed.

Lemma truthy_string_nonempty (t : string) : truthy t = true <-> t <> "".
Proof.
  unfold truthy, truthy_string.
  destruct (String.eqb_spec t ""); cbn; split; congruence.
Qed.

(** C1, as the code has it. Every request an operation dispatches --
    [export_csv] included -- carries at most one of the headers [X-API-Key]
    and [Authorization].  When [api_key] is a string that is not empty, the
    request carries [X-API-Key: <api_key>] and no [Authorization], whatever
    [token] is.  When [api_key] is [None] or the empty string: a [token] that
    is a string [t], not empty, gives [Authorization: Bearer t] and no
    [X-API-Key]; a [token] that is [None] or the empty string gives neither
    header.  (A token that [login] left with another type gives
    [Bearer] followed by its [str()] when it is truthy, and neither header
    when it is falsy.) *)
Theorem one_authentication_header (op : Op) (s : State) (req : Request) :
  In req (dispatched (call op s)) ->
  (lacks req "X-API-Key" \/ lacks req "Authorization") /\
  (forall k, api_key (client s) = Some k -> k <> "" ->
     carries req "X-API-Key" k /\ lacks req "Authorization") /\
  (api_key (client s) = None \/ api_key (client s) = Some "" ->
     (forall t, token (client s) = VStr t -> t <> "" ->
        carries req "Authorization" ("Bearer " ++ t) /\ lacks req "X-API-Key") /\
     (token (client s) = VNone \/ token (client s) = VStr "" ->
        lacks req "X-API-Key" /\ lacks req "Authorization") /\
     ((forall t, token (client s) <> VStr t) ->
        truthy (token (client s)) = true ->
        carries req "Authorization" ("Bearer " ++ builtin_str (token (client s)))
        /\ lacks req "X-API-Key") /\
     (truthy (token (client s)) = false ->
        lacks req "X-API-Key" /\ lacks req "Authorization")).
Proof.
  intros Hin.
  pose proof (built_authenticated _ _ (dispatched_built _ _ _ Hin)) as Ha.
  unfold authenticated in Ha.
  assert (Hkey : forall k, api_key (client s) = Some k -> k <> "" ->
                   carries req "X-API-Key" k /\ lacks req "Authorization").
  { intros k Hk Hne; rewrite Hk in Ha.
    apply truthy_string_nonempty in Hne; rewrite Hne in Ha; exact Ha. }
  assert (Helse : api_key (client s) = None \/ api_key (client s) = Some "" ->
            if truthy (token (client s))
            then carries req "Authorization" ("Bearer " ++ format (token (client s)))
                 /\ lacks req "X-API-Key"
            else lacks req "X-API-Key" /\ lacks req "Authorization").
  { intros [Hk | Hk]; rewrite Hk in Ha; exact Ha. }
  split; [| split; [exact Hkey |]].
  - destruct (api_key (client s)) as [k |] eqn:Hk.
    + destruct (String.eqb_spec k "") as [-> | Hne].
      * specialize (Helse (or_intror eq_refl)).
        destruct (truthy (token (client s))); tauto.
      * right; exact (proj2 (Hkey k eq_refl Hne)).
    + specialize (Helse (or_introl eq_refl)).
      destruct (truthy (token (client s))); tauto.
  - intros Hk; specialize (Helse Hk).
    split; [| split; [| split]].
    + intros t Ht Hne; rewrite Ht in Helse; cbn [truthy truthy_pyval format] in Helse.
      apply truthy_string_nonempty in Hne.
      change (truthy_string t) with (truthy t) in Helse.
      rewrite Hne in Helse; exact Helse.
    + intros [Ht | Ht]; rewrite Ht in Helse; exact Helse.
    + intros Hns Htr; rewrite Htr in Helse.
      destruct (token (client s)) as [| | | | t | | |]; try exact Helse.
      exfalso; exact (Hns t eq_refl).
    + intros Hf; rewrite Hf in Helse; exact Helse.
Qed.

End Authentication.

(** ** Error normalisation *)

Section Errors.

Context `{Runtime}.

(** An operation whose trace holds the exchange [(req, reply)] is the round
    trip on that reply. *)
Lemma call_on_reply (op : Op) (s : State) (req : Request) (reply : Reply) :
  In (req, reply) (trace (call op s)) ->
  result (call op s) = settle (on_success op) reply /\
  client (final (call op s)) = client_after op reply (client s) /\
  trace (call op s) = [(req, reply)].
Proof.
  destruct (call_shape op s) as [(t & p & o & _ & _ & E) | (req0 & _ & E)];
    rewrite E; cbn.
  - intros [].
  - intros [[= <- <-] | []]; repeat split.
Qed.

Lemma on_success_not_api_error (op : Op) (r : Response) (message : pyval)
  (status : Z) (response : Response) :
  on_success op r <> Raise (APIError message status response).
Proof.
  assert (Hj : response_json r <> Raise (APIError message status response))
    by (unfold response_json; destruct (json r); discriminate).
  assert (Hl : login_success r <> Raise (APIError message status response)).
  { unfold login_success, response_json, data_token, subscript.
    destruct (json r) as [v |]; [| discriminate].
    destruct v; try discriminate.
    destruct (dict_get "data" d) as [x |]; [| discriminate].
    destruct x; try discriminate.
    destruct (dict_get "token" d0); discriminate. }
  destruct op; cbn [on_success]; try exact Hj; [exact Hl | discriminate].
Qed.

Lemma error_message_cases (r : Response) :
  (forall d m, json r = Some (VDict d) -> dict_get "message" d = Some m ->
     error_message r = m) /\
  (forall d, json r = Some (VDict d) -> dict_get "message" d = None ->
     error_message r = fallback_message) /\
  (forall v, json r = Some v -> (forall d, v <> VDict d) ->
     error_message r = fallback_message) /\
  (json r = None -> error_message r = fallback_message).
Proof.
  unfold error_message, response_json.
  repeat split.
  - intros d m -> Hm; cbn; rewrite Hm; reflexivity.
  - intros d -> Hm; cbn; rewrite Hm; reflexivity.
  - intros v -> Hv; destruct v; try reflexivity.
    exfalso; exact (Hv d eq_refl).
  - intros ->; reflexivity.
Qed.

(** C2, as the code has it. The test is [if not response.ok:].  When the
    transport answers a call with a response that is not [ok], the call
    raises [APIError] with the response's status code and the response
    itself; its message is the value of the field ["message"] of the decoded
    body, whatever that value is, and the string ["API request failed"] when
    the body does not decode, decodes to something that is not an object, or
    has no such field.  A response that is [ok] never ends in [APIError].
    With [ok] as [requests] reports it, [APIError] is raised exactly for the
    status codes 400 to 599. *)
Theorem api_error_on_failure_status (op : Op) (s : State) (req : Request)
  (r : Response) :
  In (req, Responded r) (trace (call op s)) ->
  (ok r = false ->
   exists message,
     result (call op s) = Raise (APIError message (status_code r) r) /\
     (forall d m, json r = Some (VDict d) -> dict_get "message" d = Some m ->
        message = m) /\
     (forall d, json r = Some (VDict d) -> dict_get "message" d = None ->
        message = VStr "API request failed") /\
     (forall v, json r = Some v -> (forall d, v <> VDict d) ->
        message = VStr "API request failed") /\
     (json r = None -> message = VStr "API request failed")) /\
  (ok r = true ->
   forall message status response,
     result (call op s) <> Raise (APIError message status response)) /\
  (ok r = negb (error_status (status_code r)) ->
   ((400 <= status_code r < 600)%Z <->
    exists message,
      result (call op s) = Raise (APIError message (status_code r) r))).
Proof.
  intros Hin.
  destruct (call_on_reply _ _ _ _ Hin) as (Hres & _ & _).
  assert (Hno : ok r = true ->
            forall message status response,
              result (call op s) <> Raise (APIError message status response)).
  { intros Hok message status response; rewrite Hres; cbn; rewrite Hok.
    apply on_success_not_api_error. }
  assert (Hyes : ok r = false ->
            result (call op s)
            = Raise (APIError (error_message r) (status_code r) r)).
  { intros Hok; rewrite Hres; cbn; rewrite Hok; reflexivity. }
  split; [| split; [exact Hno |]].
  - intros Hok; exists (error_message r); split; [exact (Hyes Hok) |].
    apply error_message_cases.
  - intros Hrq.
    assert (Hst : error_status (status_code r) = true
                  <-> (400 <= status_code r < 600)%Z).
    { unfold error_status; rewrite andb_true_iff, Z.leb_le, Z.ltb_lt; tauto. }
    split.
    + intros Hrange; apply Hst in Hrange.
      rewrite Hrange in Hrq; exists (error_message r); exact (Hyes Hrq).
    + intros (message & Hm); apply Hst.
      destruct (error_status (status_code r)); [reflexivity | exfalso].
      exact (Hno Hrq _ _ _ Hm).
Qed.

(** C9. When the transport fails to produce a response, the call raises the
    transport's own exception, not an [APIError], and the failed request is
    the only one the call dispatches. *)
Theorem transport_failure_propagates (op : Op) (s : State) (req : Request)
  (e : RequestException) :
  In (req, Failed e) (trace (call op s)) ->
  result (call op s) = Raise (TransportFailure e) /\
  (forall message status response,
     result (call op s) <> Raise (APIError message status response)) /\
  trace (call op s) = [(req, Failed e)].
Proof.
  intros Hin.
  destruct (call_on_reply _ _ _ _ Hin) as (Hres & _ & Htr).
  rewrite Hres; cbn; repeat split; [discriminate | exact Htr].
Qed.

End Errors.

(** ** The client's own state *)

Section Frame.

Context `{Runtime}.

Lemma call_client (op : Op) (s : State) :
  client (final (call op s)) = client s \/
  exists req reply,
    trace (call op s) = [(req, reply)] /\
    result (call op s) = settle (on_success op) reply /\
    client (final (call op s)) = client_after op reply (client s).
Proof.
  destruct (call_shape op s) as [(t & p & o & _ & _ & E) | (req0 & _ & E)];
    rewrite E; cbn.
  - left; reflexivity.
  - right; eauto.
Qed.

Lemma client_after_frame (op : Op) (reply : Reply) (c : AirtableCloneSDK) :
  api_key (client_after op reply c) = api_key c /\
  base_url (client_after op reply c) = base_url c.
Proof.
  unfold client_after.
  destruct (is_login op); [destruct (stored_token reply) |]; split; reflexivity.
Qed.

(** C8. An operation other than [login] leaves the client object as it found
    it, whatever the transport replies; [login] leaves [api_key] and
    [base_url] as it found them. *)
Theorem only_login_mutates (op : Op) (s : State) :
  (is_login op = false -> client (final (call op s)) = client s) /\
  api_key (client (final (call op s))) = api_key (client s) /\
  base_url (client (final (call op s))) = base_url (client s).
Proof.
  destruct (call_client op s) as [E | (req & reply & _ & _ & E)]; rewrite E.
  - repeat split.
  - split; [| apply client_after_frame].
    intros Hop; unfold client_after; rewrite Hop; reflexivity.
Qed.


End Frame.

(** ** What the operations send and return *)

Section Payloads.

Context `{Runtime}.

Lemma request_dispatched (method path : string) (data : option (dict pyval))
  (files : option (dict FileObj)) (params : option (dict pyval)) (s : State) :
  dispatched (_request method path data files params s) =
  [request_kwargs (client s) method path data files params].
Proof. unfold dispatched; rewrite request_eq; reflexivity. Qed.

(** C4. [bulk_create] dispatches exactly one request: a POST to [base_url]
    followed by [/tables/{table_id}/records/bulk] whose JSON body is
    [{"records": records}], the list in the order given.  [bulk_update] does
    the same with PATCH, and [bulk_delete] with DELETE and the body
    [{"recordIds": record_ids}]. *)
Theorem bulk_is_one_request (table_id : string) (records : list pyval)
  (record_ids : list string) (s : State) :
  let bulk method body :=
    {| req_method := method;
       req_url := (base_url (client s) ++ "/tables/" ++ table_id ++ "/records/bulk")%string;
       req_headers := dict_set "Content-Type" "application/json"
                        (add_authentication (client s) []);
       req_data := None;
       req_json := Some body;
       req_files := None;
       req_params := None |} in
  dispatched (Records.bulk_create table_id records s)
    = [bulk "POST" [("records", VList records)]] /\
  dispatched (Records.bulk_update table_id records s)
    = [bulk "PATCH" [("records", VList records)]] /\
  dispatched (Records.bulk_delete table_id record_ids s)
    = [bulk "DELETE" [("recordIds", VList (map VStr record_ids))]].
Proof.
  unfold Records.bulk_create, Records.bulk_update, Records.bulk_delete.
  rewrite !request_dispatched; repeat split.
Qed.

(** C5, as the code has it. On a success response [export_csv] returns the
    bytes of the body as they are, whether or not they decode as JSON.  Every
    other operation returns the decoded body when the body decodes; [login]
    does so only when the decoded body has [["data"]["token"]], and raises
    the exception of that subscript otherwise. *)
Theorem success_payload (op : Op) (s : State) (req : Request) (r : Response) :
  In (req, Responded r) (trace (call op s)) ->
  ok r = true ->
  (is_export_csv op = true -> result (call op s) = Return (VBytes (content r))) /\
  (forall v, is_export_csv op = false -> is_login op = false ->
     json r = Some v -> result (call op s) = Return v) /\
  (forall v t, is_login op = true -> json r = Some v -> data_token v = Return t ->
     result (call op s) = Return v) /\
  (forall v e, is_login op = true -> json r = Some v -> data_token v = Raise e ->
     result (call op s) = Raise e).
Proof.
  intros Hin Hok.
  destruct (call_on_reply _ _ _ _ Hin) as (Hres & _ & _).
  rewrite Hres; cbn [settle]; rewrite Hok.
  split; [| split; [| split]].
  - destruct op; try discriminate; reflexivity.
  - intros v He Hl Hj; destruct op; try discriminate;
      cbn [on_success]; unfold response_json; rewrite Hj; reflexivity.
  - intros v t Hl Hj Ht; destruct op; try discriminate.
    cbn [on_success]; unfold login_success, response_json.
    rewrite Hj, Ht; reflexivity.
  - intros v e Hl Hj Ht; destruct op; try discriminate.
    cbn [on_success]; unfold login_success, response_json.
    rewrite Hj, Ht; reflexivity.
Qed.

(** C7, as the code has it. [_request] dispatches one request.  When [data]
    is a non-empty mapping and [files] is [None] or empty, the request
    carries [Content-Type: application/json] and [data] is what it hands to
    [requests] as [json=], to be serialised;
    when [data] is [None] or the empty mapping, the request has no
    [Content-Type] header and no JSON payload. *)
Theorem json_body_when_truthy (method path : string) (data : option (dict pyval))
  (files : option (dict FileObj)) (params : option (dict pyval)) (s : State) :
  exists req,
    dispatched (_request method path data files params s) = [req] /\
    (truthy data = true -> truthy files = false ->
       carries req "Content-Type" "application/json" /\ req_json req = data) /\
    (truthy data = false ->
       lacks req "Content-Type" /\ req_json req = None).
Proof.
  eexists; split; [apply request_dispatched |].
  unfold carries, lacks, request_kwargs, add_authentication; cbn [req_headers req_json].
  split.
  - intros -> ->; cbn [andb negb]; split; [| reflexivity].
    destruct (api_key (client s)) as [k |]; cbn [truthy truthy_option];
      try destruct (truthy k); try destruct (truthy (token (client s)));
      reflexivity.
  - intros ->; cbn [andb]; split; [| reflexivity].
    destruct (api_key (client s)) as [k |]; cbn [truthy truthy_option];
      try destruct (truthy k); try destruct (truthy (token (client s)));
      reflexivity.
Qed.

(** What [import_csv] sends once the file is open: the file, and nothing of
    [options]. *)
Lemma import_csv_dispatched (table_id csv_file_path : string)
  (options : option (dict pyval)) (s : State) (f : FileObj) :
  builtin_open csv_file_path (world s) = Some f ->
  dispatched (ImportExport.import_csv table_id csv_file_path options s) =
  [ {| req_method := "POST";
       req_url := (base_url (client s) ++ "/import/csv/" ++ table_id)%string;
       req_headers := add_authentication (client s) [];
       req_data := None;
       req_json := None;
       req_files := Some [("file", f)];
       req_params := None |} ].
Proof.
  intros Hopen; rewrite import_csv_eq, Hopen, request_dispatched.
  unfold request_kwargs; cbn [truthy truthy_option truthy_dict negb].
  rewrite andb_false_r; reflexivity.
Qed.

End Payloads.

(** ** Login *)

Section Login.

Context `{Runtime}.

Lemma call_keeps_client (op : Op) (s : State) :
  is_login op = false -> client (final (call op s)) = client s.
Proof.
  intros Hop.
  destruct (call_client op s) as [E | (req & reply & _ & _ & E)]; [exact E |].
  rewrite E; unfold client_after; rewrite Hop; reflexivity.
Qed.

(** Calls that are not [login], made in a row, are all built from the client
    object the first one found. *)
Lemma call_all_built (ops : list Op) (s : State) (req : Request) :
  Forall (fun op => is_login op = false) ops ->
  In req (map request_of (snd (call_all ops s))) ->
  built (client s) req.
Proof.
  intros Hops; revert s.
  induction Hops as [| op ops Hop _ IH]; intros s; cbn.
  - intros [].
  - destruct (call_all ops (final (call op s))) as [s' t] eqn:E; cbn.
    rewrite map_app, in_app_iff; intros [Hin | Hin].
    + apply (dispatched_built op s); exact Hin.
    + rewrite <- (call_keeps_client op s Hop).
      apply IH; rewrite E; exact Hin.
Qed.

Lemma bearer_of_built (c : AirtableCloneSDK) (t : string) (req : Request) :
  token c = VStr t -> truthy t = true -> truthy (api_key c) = false ->
  built c req -> carries req "Authorization" ("Bearer " ++ t).
Proof.
  intros Ht Htt Hk Hb.
  pose proof (built_authenticated _ _ Hb) as Ha; unfold authenticated in Ha.
  rewrite Ht in Ha; cbn [truthy truthy_pyval format] in Ha.
  destruct (api_key c) as [k |]; cbn [truthy truthy_option] in Hk.
  - rewrite Hk in Ha. change (truthy_string t) with (truthy t) in Ha.
    rewrite Htt in Ha; tauto.
  - change (truthy_string t) with (truthy t) in Ha. rewrite Htt in Ha; tauto.
Qed.

(** C3. When the transport answers [login] with a success response whose
    decoded body is [{"data": {"token": t}}], the client's [token] becomes
    [t]; and when [t] is not the empty string and [api_key] is not set, every
    request dispatched afterwards -- by the next call, whichever it is, and by
    any run of calls that are not [login] -- carries
    [Authorization: Bearer t]. *)
Theorem login_stores_token (email password : string) (s : State)
  (req : Request) (r : Response) (t : string) :
  In (req, Responded r) (trace (Auth.login email password s)) ->
  ok r = true ->
  json r = Some (VDict [("data", VDict [("token", VStr t)])]) ->
  let s1 := final (Auth.login email password s) in
  token (client s1) = VStr t /\
  (truthy t = true -> truthy (api_key (client s)) = false ->
   (forall op req',
      In req' (dispatched (call op s1)) ->
      carries req' "Authorization" ("Bearer " ++ t)) /\
   (forall ops req',
      Forall (fun op => is_login op = false) ops ->
      In req' (map request_of (snd (call_all ops s1))) ->
      carries req' "Authorization" ("Bearer " ++ t))).
Proof.
  intros Hin Hok Hj s1.
  assert (Hc : client s1 = with_token (VStr t) (client s)).
  { subst s1; rewrite login_eq in *; cbn in *.
    destruct Hin as [[= _ Hr] | []]; rewrite Hr.
    unfold stored_token, response_json; rewrite Hok, Hj; reflexivity. }
  split; [rewrite Hc; reflexivity |].
  intros Ht Hk.
  assert (Hb : forall req', built (client s1) req' ->
                 carries req' "Authorization" ("Bearer " ++ t)).
  { intros req'; apply bearer_of_built; try rewrite Hc; auto. }
  split.
  - intros op req' Hin'; apply Hb, (dispatched_built op s1), Hin'.
  - intros ops req' Hops Hin'; apply Hb, (call_all_built ops s1 req' Hops), Hin'.
Qed.

End Login.

(** ** Multipart upload *)

Section Upload.

Context `{Runtime}.

(** C6. [import_csv] hands the open file to the transport and nothing else:
    [_request] passes [data] on only as the JSON payload of a request without
    files, so with files the [options] reach neither [data=] nor [json=] of
    [requests.request], and the request is the same whatever [options] is. *)
Theorem import_csv_drops_options (table_id csv_file_path : string)
  (options : option (dict pyval)) (s : State) (f : FileObj) :
  builtin_open csv_file_path (world s) = Some f ->
  exists req,
    dispatched (ImportExport.import_csv table_id csv_file_path options s) = [req] /\
    req_method req = "POST" /\
    req_url req = (base_url (client s) ++ "/import/csv/" ++ table_id)%string /\
    req_files req = Some [("file", f)] /\
    lacks req "Content-Type" /\
    req_data req = None /\
    req_json req = None /\
    dispatched (ImportExport.import_csv table_id csv_file_path None s) = [req].
Proof.
  intros Hopen; eexists; split; [apply import_csv_dispatched, Hopen |].
  rewrite (import_csv_dispatched _ _ None _ _ Hopen).
  repeat split.
  unfold lacks, add_authentication; cbn [req_headers].
  destruct (api_key (client s)) as [k |]; cbn [truthy truthy_option];
    try destruct (truthy k); try destruct (truthy (token (client s)));
    reflexivity.
Qed.

End Upload.

(** ** Dictionaries *)

Section Dictionaries.

Variable V : Type.

Lemma dict_get_set_eq (k : string) (v : V) (d : dict V) :
  dict_get k (dict_set k v d) = Some v.
Proof.
  induction d as [| [k' v'] d IH]; cbn.
  - rewrite String.eqb_refl; reflexivity.
  - destruct (String.eqb_spec k' k) as [-> | Hne]; cbn.
    + rewrite String.eqb_refl; reflexivity.
    + destruct (String.eqb_spec k' k); [contradiction | exact IH].
Qed.

Lemma dict_get_set_neq (k k' : string) (v : V) (d : dict V) :
  k <> k' -> dict_get k (dict_set k' v d) = dict_get k d.
Proof.
  intros Hne; induction d as [| [k0 v0] d IH]; cbn.
  - destruct (String.eqb_spec k' k); [congruence | reflexivity].
  - destruct (String.eqb_spec k0 k') as [-> | Hk0]; cbn.
    + destruct (String.eqb_spec k' k); [congruence | reflexivity].
    + destruct (String.eqb_spec k0 k); [reflexivity | exact IH].
Qed.

Lemma dict_get_absent (k : string) (d : dict V) :
  ~ In k (keys d) -> dict_get k d = None.
Proof.
  induction d as [| [k' v'] d IH]; cbn; [reflexivity |].
  intros Hn; destruct (String.eqb_spec k' k); [tauto | apply IH; tauto].
Qed.

(** After [d.update(other)] a key reads as in [other] when [other] binds it,
    and as in [d] otherwise. *)
Lemma dict_get_update (k : string) (d other : dict V) :
  NoDup (keys other) ->
  dict_get k (dict_update d other) =
  match dict_get k other with
  | Some v => Some v
  | None => dict_get k d
  end.
Proof.
  unfold dict_update; intros Hnd; revert d.
  induction other as [| [k' v'] other IH]; intros d; cbn; [reflexivity |].
  inversion Hnd as [| ? ? Hnotin Hnd']; subst.
  rewrite (IH Hnd').
  destruct (String.eqb_spec k' k) as [-> | Hne].
  - rewrite (dict_get_absent _ _ Hnotin); apply dict_get_set_eq.
  - destruct (dict_get k other); [reflexivity |].
    apply dict_get_set_neq; congruence.
Qed.

End Dictionaries.

(** ** The shape of every request *)

Ltac unfold_methods :=
  unfold Auth.register, Auth.get_profile, Auth.create_api_key,
    Auth.list_api_keys, Auth.delete_api_key,
    Bases.create, Bases.list, Bases.get, Bases.update, Bases.delete,
    Bases.share,
    Tables.create, Tables.list, Tables.get, Tables.update, Tables.delete,
    Records.create, Records.list, Records.get, Records.update,
    Records.delete, Records.bulk_create, Records.bulk_update,
    Records.bulk_delete,
    Fields.create, Fields.list, Fields.get, Fields.update, Fields.delete,
    Views.create, Views.list, Views.get, Views.update, Views.delete,
    Webhooks.create, Webhooks.list, Webhooks.get, Webhooks.update,
    Webhooks.delete, Webhooks.toggle_active, Webhooks.get_deliveries,
    Search.global_search, Search.base_search, Search.table_search.

Section Shape.

Context `{Runtime}.

Lemma login_dispatched (email password : string) (s : State) :
  dispatched (Auth.login email password s) =
  [request_kwargs (client s) "POST" "/auth/login"
     (Some [("email", VStr email); ("password", VStr password)]) None None].
Proof. unfold dispatched; rewrite login_eq; reflexivity. Qed.

Lemma export_csv_dispatched (table_id : string) (options : option (dict pyval))
  (s : State) :
  dispatched (ImportExport.export_csv table_id options s) =
  [export_kwargs (client s) table_id options].
Proof. unfold dispatched; rewrite export_csv_eq; reflexivity. Qed.

(** How the arguments of [_request] depend on the operation. *)
Lemma call_request_form (op : Op) (s : State) (req : Request) :
  In req (dispatched (call op s)) ->
  (exists method path data files params,
      req = request_kwargs (client s) method path data files params /\
      (exists rest, path = ("/" ++ rest)%string) /\
      In method ["GET"; "POST"; "PATCH"; "DELETE"] /\
      (method = "GET" -> data = None /\ files = None) /\
      (files <> None -> exists table_id p o, op = ImportCsv table_id p o))
  \/
  (exists table_id options,
      op = ExportCsv table_id options /\
      req = export_kwargs (client s) table_id options).
Proof.
  destruct op; cbn [call]; unfold_methods; cbv zeta;
    try (rewrite request_dispatched; intros [<- | []]; left;
         do 5 eexists; split; [reflexivity |];
         split; [eexists; reflexivity |];
         split; [cbn; tauto |];
         split; [first [ intros _; split; reflexivity | discriminate ] |];
         intros Hf; exfalso; apply Hf; reflexivity).
  - rewrite login_dispatched; intros [<- | []]; left.
    do 5 eexists; split; [reflexivity |].
    split; [eexists; reflexivity |].
    split; [cbn; tauto |].
    split; [discriminate |].
    intros Hf; exfalso; apply Hf; reflexivity.
  - unfold dispatched; rewrite import_csv_eq.
    destruct (builtin_open csv_file_path (world s)) as [f |]; [| intros []].
    fold (dispatched (_request "POST" ("/import/csv/" ++ table_id)%string
                        options (Some [("file", f)]) None s)).
    rewrite request_dispatched; intros [<- | []]; left.
    do 5 eexists; split; [reflexivity |].
    split; [eexists; reflexivity |].
    split; [cbn; tauto |].
    split; [discriminate |].
    intros _; eauto.
  - rewrite export_csv_dispatched; intros [<- | []]; right; eauto.
Qed.

(** X1. Every operation dispatches exactly one request, except [import_csv]
    on a file that cannot be opened: then the exception of [open] -- an
    [OSError], or the [ValueError] of a path it refuses -- is raised before
    anything is sent, and the client and the world are as before. *)
Theorem one_request_per_call (op : Op) (s : State) :
  (exists req reply,
      trace (call op s) = [(req, reply)] /\
      requests_request req (world s) = (reply, world (final (call op s))))
  \/
  (exists table_id path options,
      op = ImportCsv table_id path options /\
      builtin_open path (world s) = None /\
      trace (call op s) = [] /\
      (builtin_open_failure path (world s) = OpenOSError ->
         result (call op s) = Raise (OSError path)) /\
      (builtin_open_failure path (world s) = OpenValueError ->
         result (call op s) = Raise ValueError) /\
      final (call op s) = s).
Proof.
  destruct (call_shape op s) as [(t & p & o & Hop & Hopen & E) | (req & _ & E)];
    rewrite E.
  - right; exists t, p, o; cbn.
    split; [exact Hop |]; split; [exact Hopen |]; split; [reflexivity |].
    split; [intros ->; reflexivity |]; split; [intros ->; reflexivity |].
    reflexivity.
  - left; exists req, (fst (requests_request req (world s))); cbn.
    split; [reflexivity |].
    destruct (requests_request req (world s)); reflexivity.
Qed.

(** X2. The URL of every request is the client's [base_url] followed, with
    nothing in between and nothing changed, by a path that starts with a
    slash; the method is GET, POST, PATCH or DELETE. *)
Theorem url_is_base_url_then_path (op : Op) (s : State) (req : Request) :
  In req (dispatched (call op s)) ->
  (exists rest, req_url req = (base_url (client s) ++ "/" ++ rest)%string) /\
  In (req_method req) ["GET"; "POST"; "PATCH"; "DELETE"].
Proof.
  intros Hin.
  destruct (call_request_form op s req Hin)
    as [(m & p & d & f & prm & -> & (rest & ->) & Hm & _) | (t & o & _ & ->)].
  - split; [exists rest; reflexivity | exact Hm].
  - split; [eexists; reflexivity | cbn; tauto].
Qed.

Lemma built_invariants (c : AirtableCloneSDK) (req : Request) :
  built c req ->
  (forall name, dict_get name (req_headers req) <> None -> In name sdk_headers) /\
  (carries req "Content-Type" "application/json" <-> req_json req <> None) /\
  (lacks req "Content-Type" <-> req_json req = None) /\
  req_json req <> Some [] /\
  req_data req = None /\
  (req_json req <> None -> truthy (req_files req) = false).
Proof.
  assert (Hauth : forall name,
             dict_get name (add_authentication c []) <> None ->
             name = "X-API-Key" \/ name = "Authorization").
  { intros name; unfold add_authentication.
    destruct (api_key c) as [k |]; cbn [truthy truthy_option];
      try destruct (truthy k); try destruct (truthy (token c));
      cbn [dict_get dict_set];
      repeat match goal with
             | |- context [(?a =? name)%string] =>
                 destruct (String.eqb_spec a name)
             end;
      intros Hn; first [ now (exfalso; apply Hn) | subst; auto ]. }
  assert (Hct : dict_get "Content-Type" (add_authentication c []) = None).
  { destruct (dict_get "Content-Type" (add_authentication c [])) eqn:E;
      [| reflexivity].
    destruct (Hauth "Content-Type") as [E' | E']; [congruence | |]; discriminate. }
  assert (Hset : forall name,
             dict_get name (dict_set "Content-Type" "application/json"
                              (add_authentication c [])) <> None ->
             In name sdk_headers).
  { intros name Hn; unfold sdk_headers.
    destruct (String.eqb_spec name "Content-Type") as [-> | Hne]; [cbn; auto |].
    rewrite dict_get_set_neq in Hn by exact Hne.
    destruct (Hauth name Hn) as [-> | ->]; cbn; auto. }
  assert (Hset' : dict_get "Content-Type"
                    (dict_set "Content-Type" "application/json"
                       (add_authentication c [])) = Some "application/json")
    by apply dict_get_set_eq.
  intros [method path data files params | table_id options];
    unfold carries, lacks, request_kwargs, export_kwargs, sdk_headers;
    cbn [req_headers req_json req_data req_files].
  - destruct (truthy data && negb (truthy files)) eqn:E.
    + apply andb_true_iff in E as [Hd Hf]; apply negb_true_iff in Hf.
      destruct data as [[| kv d] |]; try discriminate Hd.
      rewrite Hset'; split; [exact Hset |].
      repeat apply conj; congruence.
    + rewrite Hct; split.
      * intros name Hn; destruct (Hauth name Hn) as [-> | ->]; cbn; auto.
      * repeat apply conj; congruence.
  - rewrite Hct; split.
    + intros name Hn; destruct (Hauth name Hn) as [-> | ->]; cbn; auto.
    + repeat apply conj; congruence.
Qed.

(** X3. What a request of the SDK can hold. Its headers are among
    [X-API-Key], [Authorization] and [Content-Type]; it has
    [Content-Type: application/json] exactly when it has a JSON payload; the
    payload is never the empty mapping and never comes with files that are
    not empty; and no form fields ([data=]) are ever passed. *)
Theorem request_invariants (op : Op) (s : State) (req : Request) :
  In req (dispatched (call op s)) ->
  (forall name, dict_get name (req_headers req) <> None -> In name sdk_headers) /\
  (carries req "Content-Type" "application/json" <-> req_json req <> None) /\
  (lacks req "Content-Type" <-> req_json req = None) /\
  req_json req <> Some [] /\
  req_data req = None /\
  (req_json req <> None -> truthy (req_files req) = false).
Proof.
  intros Hin; exact (built_invariants _ _ (dispatched_built _ _ _ Hin)).
Qed.

(** X4. A GET request carries no body: no JSON payload, no files and no
    [Content-Type] header.  Files are only ever sent by [import_csv]. *)
Theorem get_has_no_body (op : Op) (s : State) (req : Request) :
  In req (dispatched (call op s)) ->
  (req_method req = "GET" ->
     req_json req = None /\ req_files req = None /\ lacks req "Content-Type") /\
  (req_files req <> None -> exists table_id path options,
     op = ImportCsv table_id path options).
Proof.
  intros Hin.
  pose proof (built_invariants _ _ (dispatched_built _ _ _ Hin))
    as (_ & _ & Hlacks & _).
  destruct (call_request_form op s req Hin)
    as [(m & p & d & f & prm & -> & _ & _ & Hget & Hfiles) | (t & o & _ & ->)].
  - split; [| exact Hfiles].
    intros Hm; destruct (Hget Hm) as [-> ->].
    assert (Hj : req_json (request_kwargs (client s) m p None None prm) = None)
      by reflexivity.
    split; [exact Hj |]; split; [reflexivity | apply Hlacks, Hj].
  - split; [| intros Hf; exfalso; apply Hf; reflexivity].
    intros _; split; [reflexivity |]; split; [reflexivity |].
    apply Hlacks; reflexivity.
Qed.

End Shape.

(** ** How a call ends *)

Section Endings.

Context `{Runtime}.




(** X7. [login] is all or nothing: when it returns, the token is now
    [response["data"]["token"]] of the value returned, whatever that is;
    when it raises, the client object is as before. *)
Theorem login_is_atomic (email password : string) (s : State) :
  (forall v, result (Auth.login email password s) = Return v ->
     exists t, data_token v = Return t /\
               client (final (Auth.login email password s)) = with_token t (client s)) /\
  (forall e, result (Auth.login email password s) = Raise e ->
     client (final (Auth.login email password s)) = client s).
Proof.
  rewrite login_eq; cbn.
  destruct (fst (requests_request _ (world s))) as [r | x]; cbn;
    [| split; [discriminate | reflexivity]].
  unfold login_success.
  destruct (ok r); [| split; [discriminate | reflexivity]].
  destruct (response_json r) as [v |]; [| split; [discriminate | reflexivity]].
  destruct (data_token v) as [t |] eqn:Ht; split;
    try discriminate; try reflexivity.
  intros v' [= <-]; exists t; split; [exact Ht | reflexivity].
Qed.

End Endings.

(** ** Over the life of a client *)

Section Lifetime.

Context `{Runtime}.

Lemma call_frame (op : Op) (s : State) :
  api_key (client (final (call op s))) = api_key (client s) /\
  base_url (client (final (call op s))) = base_url (client s).
Proof.
  destruct (call_client op s) as [E | (req & reply & _ & _ & E)]; rewrite E.
  - split; reflexivity.
  - apply client_after_frame.
Qed.

Lemma call_all_cons (op : Op) (ops : list Op) (s : State) :
  call_all (op :: ops) s =
  (fst (call_all ops (final (call op s))),
   trace (call op s) ++ snd (call_all ops (final (call op s)))).
Proof. cbn; destruct (call_all ops (final (call op s))); reflexivity. Qed.

Lemma call_all_frame (ops : list Op) (s : State) :
  api_key (client (fst (call_all ops s))) = api_key (client s) /\
  base_url (client (fst (call_all ops s))) = base_url (client s).
Proof.
  revert s; induction ops as [| op ops IH]; intros s.
  - split; reflexivity.
  - rewrite call_all_cons; cbn [fst].
    destruct (IH (final (call op s))) as (Hk & Hu).
    destruct (call_frame op s) as (Hk' & Hu').
    split; congruence.
Qed.

Lemma call_trace_length (op : Op) (s : State) :
  length (trace (call op s)) <= 1.
Proof.
  destruct (call_shape op s) as [(t & p & o & _ & _ & E) | (req & _ & E)];
    rewrite E; cbn; auto.
Qed.

(** X8. However many calls are made, [login] among them, the client's
    [api_key] and [base_url] stay what they were; without a [login] the
    whole client object stays; and [n] calls make at most [n] requests. *)
Theorem credentials_over_calls (ops : list Op) (s : State) :
  api_key (client (fst (call_all ops s))) = api_key (client s) /\
  base_url (client (fst (call_all ops s))) = base_url (client s) /\
  (Forall (fun op => is_login op = false) ops ->
     client (fst (call_all ops s)) = client s) /\
  length (snd (call_all ops s)) <= length ops.
Proof.
  destruct (call_all_frame ops s) as (Hk & Hu).
  split; [exact Hk |]; split; [exact Hu |]; clear Hk Hu.
  revert s; induction ops as [| op ops IH]; intros s.
  - split; [reflexivity | constructor].
  - rewrite call_all_cons; cbn [fst snd].
    destruct (IH (final (call op s))) as (Hc & Hn).
    split.
    + intros Hall; inversion Hall as [| ? ? Hop Hops]; subst.
      rewrite (Hc Hops); apply call_keeps_client, Hop.
    + rewrite length_app; cbn [length].
      apply (PeanoNat.Nat.add_le_mono _ 1 _ _); [apply call_trace_length | exact Hn].
Qed.

(** X9. A client constructed with a non-empty [api_key] authenticates every
    request with it for life: after any calls, successful logins included,
    the next request carries [X-API-Key] and no [Authorization]; the token a
    login stored is not used. *)
Theorem api_key_outlives_login (key : string) (tok : option string) (url : string)
  (w : World) (ops : list Op) (op : Op) (req : Request) :
  truthy key = true ->
  let s := {| client := __init__ (Some key) tok url; world := w |} in
  In req (dispatched (call op (fst (call_all ops s)))) ->
  carries req "X-API-Key" key /\ lacks req "Authorization".
Proof.
  intros Hkey s Hin.
  pose proof (built_authenticated _ _ (dispatched_built _ _ _ Hin)) as Ha.
  destruct (call_all_frame ops s) as (Hk & _).
  unfold authenticated in Ha; rewrite Hk in Ha.
  subst s; cbn [api_key __init__ client] in Ha.
  rewrite Hkey in Ha; exact Ha.
Qed.

End Lifetime.

(** ** What particular operations send *)

Section Sent.

Context `{Runtime}.

(** X10. An operation that forwards a mapping of its caller ([create],
    [update], [register], [share], ...) dispatches one request, whose JSON
    payload is that mapping when it is not empty; for the empty mapping the
    request has no payload and no [Content-Type] header.  Neither files nor
    query parameters come with it. *)
Theorem data_is_sent_unless_empty (op : Op) (d : dict pyval) (s : State) :
  data_argument op = Some d ->
  exists req,
    dispatched (call op s) = [req] /\
    req_json req = (if truthy d then Some d else None) /\
    (d = [] -> lacks req "Content-Type") /\
    req_files req = None /\
    req_params req = None.
Proof.
  intros Hd.
  destruct op; try discriminate Hd; injection Hd as ->;
    cbn [call]; unfold_methods; rewrite request_dispatched;
    (eexists; split; [reflexivity |]);
    (split; [destruct d; reflexivity |]);
    (split; [| split; reflexivity]);
    intros ->;
    apply (proj2 (proj1 (proj2 (proj2 (built_invariants _ _
             (built_request _ _ _ _ _ _)))))); reflexivity.
Qed.

(** X11. The search methods send [query] and the entries of [options] as
    query parameters of a GET without body; an entry of [options] under
    ["query"] replaces the [query] argument. *)
Theorem search_options_override_query (op : Op) (query : string)
  (options : option (dict pyval)) (s : State) :
  search_arguments op = Some (query, options) ->
  (forall o, options = Some o -> NoDup (keys o)) ->
  exists req params,
    dispatched (call op s) = [req] /\
    req_method req = "GET" /\
    req_json req = None /\
    req_params req = Some params /\
    forall k,
      dict_get k params =
      match match options with Some o => dict_get k o | None => None end with
      | Some v => Some v
      | None => dict_get k [("query", VStr query)]
      end.
Proof.
  intros Ha Hnd.
  assert (Hparams : forall k,
    dict_get k match options with
               | Some o => if truthy o
                           then dict_update [("query", VStr query)] o
                           else [("query", VStr query)]
               | None => [("query", VStr query)]
               end =
    match match options with Some o => dict_get k o | None => None end with
    | Some v => Some v
    | None => dict_get k [("query", VStr query)]
    end).
  { intros k; destruct options as [[| kv o] |]; try reflexivity.
    cbn [truthy truthy_dict].
    apply dict_get_update, Hnd; reflexivity. }
  destruct op; try discriminate Ha; injection Ha as -> ->;
    cbn [call]; unfold_methods; cbv zeta; rewrite request_dispatched;
    do 2 eexists; (split; [reflexivity |]);
    repeat (split; [reflexivity |]); exact Hparams.
Qed.

(** X12. [login] sends the e-mail address and the password in the JSON body
    of one POST to [/auth/login], and nowhere else; the request is
    authenticated with the credentials held before the call. *)
Theorem login_request (email password : string) (s : State) :
  dispatched (Auth.login email password s) =
  [ {| req_method := "POST";
       req_url := (base_url (client s) ++ "/auth/login")%string;
       req_headers := dict_set "Content-Type" "application/json"
                        (add_authentication (client s) []);
       req_data := None;
       req_json := Some [("email", VStr email); ("password", VStr password)];
       req_files := None;
       req_params := None |} ].
Proof. rewrite login_dispatched; reflexivity. Qed.

(** X13. [export_csv] sends one GET to [base_url] followed by
    [/export/csv/{table_id}], with the authentication header only, no body,
    and [options] as the query parameters exactly as given. *)
Theorem export_csv_request (table_id : string) (options : option (dict pyval))
  (s : State) :
  dispatched (ImportExport.export_csv table_id options s) =
  [ {| req_method := "GET";
       req_url := (base_url (client s) ++ "/export/csv/" ++ table_id)%string;
       req_headers := add_authentication (client s) [];
       req_data := None;
       req_json := None;
       req_files := None;
       req_params := options |} ].
Proof. rewrite export_csv_dispatched; reflexivity. Qed.

(** X14. [toggle_active] sends the flag in the JSON body [{"active": active}]
    of a PATCH, for [False] as for [True]; [get_deliveries] sends [limit] as
    the query parameter ["limit"] of a GET without body, whatever the
    number. *)
Theorem webhook_controls (webhook_id : string) (active : bool) (limit : Z)
  (s : State) :
  dispatched (Webhooks.toggle_active webhook_id active s) =
  [ {| req_method := "PATCH";
       req_url := (base_url (client s) ++ "/webhooks/" ++ webhook_id ++ "/active")%string;
       req_headers := dict_set "Content-Type" "application/json"
                        (add_authentication (client s) []);
       req_data := None;
       req_json := Some [("active", VBool active)];
       req_files := None;
       req_params := None |} ] /\
  dispatched (Webhooks.get_deliveries webhook_id limit s) =
  [ {| req_method := "GET";
       req_url := (base_url (client s) ++ "/webhooks/" ++ webhook_id ++ "/deliveries")%string;
       req_headers := add_authentication (client s) [];
       req_data := None;
       req_json := None;
       req_files := None;
       req_params := Some [("limit", VInt limit)] |} ].
Proof.
  unfold Webhooks.toggle_active, Webhooks.get_deliveries.
  rewrite !request_dispatched; split; reflexivity.
Qed.

(** X15. A login answered with a token that is [None], the empty string or
    otherwise falsy stores it all the same; with no [api_key], the requests
    that follow carry no authentication header at all, whatever token was
    held before. *)
Theorem falsy_token_unauthenticates (email password : string) (s : State)
  (req : Request) (r : Response) (v t : pyval) :
  In (req, Responded r) (trace (Auth.login email password s)) ->
  ok r = true ->
  json r = Some v ->
  data_token v = Return t ->
  truthy t = false ->
  truthy (api_key (client s)) = false ->
  let s1 := final (Auth.login email password s) in
  token (client s1) = t /\
  forall op req',
    In req' (dispatched (call op s1)) ->
    lacks req' "X-API-Key" /\ lacks req' "Authorization".
Proof.
  intros Hin Hok Hj Ht Hfalsy Hk s1.
  assert (Hc : client s1 = with_token t (client s)).
  { subst s1; rewrite login_eq in *; cbn in *.
    destruct Hin as [[= _ Hr] | []]; rewrite Hr.
    unfold stored_token, response_json; rewrite Hok, Hj, Ht; reflexivity. }
  split; [rewrite Hc; reflexivity |].
  intros op req' Hin'.
  pose proof (built_authenticated _ _ (dispatched_built _ _ _ Hin')) as Ha.
  unfold authenticated in Ha; rewrite Hc in Ha; cbn [api_key token with_token] in Ha.
  rewrite Hfalsy in Ha.
  destruct (api_key (client s)) as [k |]; cbn [truthy truthy_option] in Hk;
    [rewrite Hk in Ha |]; exact Ha.
Qed.

End Sent.

(** ** The theorems at work on the scripted runtime *)

#[local] Existing Instance scripted.

Lemma one_authentication_header_witness :
  let s := start both_credentials [] in
  let req := export_kwargs both_credentials "t1" None in
  let s' := start token_only [] in
  let req' := request_kwargs token_only "GET" "/bases" None None None in
  (In req (dispatched (call (ExportCsv "t1" None) s)) /\
   carries req "X-API-Key" "key-1" /\ lacks req "Authorization") /\
  (In req' (dispatched (call BasesList s')) /\
   carries req' "Authorization" "Bearer T0" /\ lacks req' "X-API-Key").
Proof.
  intros s req s' req'.
  assert (Hin : In req (dispatched (call (ExportCsv "t1" None) s)))
    by (left; reflexivity).
  assert (Hin' : In req' (dispatched (call BasesList s')))
    by (left; reflexivity).
  split; (split; [assumption |]).
  - destruct (one_authentication_header (ExportCsv "t1" None) s req Hin)
      as (_ & Hkey & _).
    apply (Hkey "key-1"); [reflexivity | discriminate].
  - destruct (one_authentication_header BasesList s' req' Hin')
      as (_ & _ & Helse).
    destruct (Helse (or_introl eq_refl)) as (Htok & _).
    apply (Htok "T0"); [reflexivity | discriminate].
Defined.

(** C1 as stated fails for an [api_key] that is set to the empty string: the
    request has no [X-API-Key] header and carries the token instead. *)
Lemma empty_api_key_sends_token :
  let c := {| api_key := Some ""; token := VStr "T0"; base_url := default_base_url |} in
  let s := start c [] in
  let req := request_kwargs c "GET" "/bases" None None None in
  api_key c = Some "" /\
  dispatched (call BasesList s) = [req] /\
  ~ carries req "X-API-Key" "" /\
  ~ lacks req "Authorization" /\
  carries req "Authorization" "Bearer T0".
Proof.
  cbn zeta; split; [reflexivity |]; split; [reflexivity |].
  split; [discriminate |]; split; [discriminate | reflexivity].
Qed.

(** An [api_key] that is the empty string is not set: the token is used. *)
Example empty_api_key_is_not_sent :
  let c := {| api_key := Some ""; token := VStr "T0"; base_url := default_base_url |} in
  dispatched (call BasesList (start c [])) =
  [ {| req_method := "GET";
       req_url := "http://localhost:3000/api/v1/bases";
       req_headers := [("Authorization", "Bearer T0")];
       req_data := None; req_json := None; req_files := None;
       req_params := None |} ].
Proof. reflexivity. Qed.

Lemma api_error_on_failure_status_witness :
  let s := start anonymous [Responded not_found] in
  let op := BasesGet "b1" in
  let req := request_kwargs anonymous "GET" "/bases/b1" None None None in
  In (req, Responded not_found) (trace (call op s)) /\
  ok not_found = false /\
  ok not_found = negb (error_status (status_code not_found)) /\
  result (call op s) = Raise (APIError (VStr "not found") 404 not_found).
Proof.
  intros s op req.
  assert (Hin : In (req, Responded not_found) (trace (call op s)))
    by (left; reflexivity).
  split; [exact Hin |]; split; [reflexivity |]; split; [reflexivity |].
  destruct (api_error_on_failure_status op s req not_found Hin) as (Hbad & _).
  destruct (Hbad eq_refl) as (message & Hres & Hmsg & _).
  rewrite Hres.
  rewrite (Hmsg [("message", VStr "not found")] (VStr "not found") eq_refl eq_refl).
  reflexivity.
Defined.

(** C2 as stated fails for a status that is not a success status but that
    [requests] reports as [ok]: on 304 with an empty body the call ends with
    [JSONDecodeError], not with [APIError]. *)
Lemma not_modified_is_not_an_api_error :
  let s := start anonymous [Responded not_modified] in
  let op := BasesGet "b1" in
  let req := request_kwargs anonymous "GET" "/bases/b1" None None None in
  trace (call op s) = [(req, Responded not_modified)] /\
  status_code not_modified = 304%Z /\
  ok not_modified = true /\
  result (call op s) = Raise JSONDecodeError /\
  forall message status response,
    result (call op s) <> Raise (APIError message status response).
Proof.
  cbn zeta; repeat (split; [reflexivity |]).
  intros message status response; discriminate.
Qed.

(** With a body that is not JSON the message is the fallback. *)
Example fallback_on_non_json :
  result (call BasesList (start anonymous [Responded server_error])) =
  Raise (APIError (VStr "API request failed") 500 server_error).
Proof. reflexivity. Qed.

Lemma login_stores_token_witness :
  let s := start anonymous [Responded (json_ok (token_body "T"))] in
  let s1 := final (Auth.login "a@b.com" "pw" s) in
  token (client s1) = VStr "T" /\
  forall op req', In req' (dispatched (call op s1)) ->
                  carries req' "Authorization" "Bearer T".
Proof.
  intros s s1.
  pose (req := request_kwargs anonymous "POST" "/auth/login"
                 (Some [("email", VStr "a@b.com"); ("password", VStr "pw")])
                 None None).
  assert (Hin : In (req, Responded (json_ok (token_body "T")))
                   (trace (Auth.login "a@b.com" "pw" s)))
    by (left; reflexivity).
  destruct (login_stores_token "a@b.com" "pw" s req _ "T" Hin eq_refl eq_refl)
    as (Htok & Hnext).
  split; [exact Htok |].
  exact (proj1 (Hnext eq_refl eq_refl)).
Defined.

(** C5 as stated fails for [login]: on a success response whose body decodes
    to [{}] it raises [KeyError] instead of returning the decoded body. *)
Lemma login_does_not_return_body :
  let r := json_ok (VDict []) in
  let s := start anonymous [Responded r] in
  let op := AuthLogin "a@b.com" "pw" in
  is_export_csv op = false /\
  (exists req, In (req, Responded r) (trace (call op s))) /\
  ok r = true /\
  json r = Some (VDict []) /\
  result (call op s) = Raise (KeyError "data") /\
  result (call op s) <> Return (VDict []).
Proof.
  cbn zeta; repeat split.
  - eexists; left; reflexivity.
  - discriminate.
Qed.

Lemma success_payload_witness :
  let s := start token_only [Responded csv_ok] in
  let op := ExportCsv "t1" None in
  let req := export_kwargs token_only "t1" None in
  In (req, Responded csv_ok) (trace (call op s)) /\
  ok csv_ok = true /\
  json csv_ok = None /\
  result (call op s) = Return (VBytes csv_bytes).
Proof.
  intros s op req.
  assert (Hin : In (req, Responded csv_ok) (trace (call op s)))
    by (left; reflexivity).
  split; [exact Hin |]; split; [reflexivity |]; split; [reflexivity |].
  exact (proj1 (success_payload op s req csv_ok Hin eq_refl) eq_refl).
Defined.

(** C7 as stated fails for the empty mapping: [data = {}] is a body mapping
    that is present, with no files, and the request has neither the
    [Content-Type] header nor a JSON payload. *)
Lemma empty_body_is_not_sent :
  let s := start anonymous [] in
  exists req,
    dispatched (_request "POST" "/bases" (Some []) None None s) = [req] /\
    ~ carries req "Content-Type" "application/json" /\
    req_json req <> Some [].
Proof.
  cbn zeta; eexists; split; [reflexivity |].
  split; discriminate.
Qed.

Lemma json_body_when_truthy_witness :
  let s := start anonymous [] in
  let body := [("name", VStr "Projects")] in
  exists req,
    dispatched (_request "POST" "/bases" (Some body) None None s) = [req] /\
    carries req "Content-Type" "application/json" /\
    req_json req = Some body.
Proof.
  intros s body.
  destruct (json_body_when_truthy "POST" "/bases" (Some body) None None s)
    as (req & Hd & Hyes & _).
  exists req; split; [exact Hd |].
  exact (Hyes eq_refl eq_refl).
Defined.

Lemma import_csv_drops_options_witness :
  let s := start anonymous [Responded (json_ok (VDict []))] in
  let f := {| file_name := "data.csv"; file_data := csv_bytes |} in
  builtin_open "data.csv" (world s) = Some f /\
  exists req,
    dispatched (ImportExport.import_csv "tbl1" "data.csv"
                  (Some [("delimiter", VStr ";")]) s) = [req] /\
    req_files req = Some [("file", f)] /\
    req_data req = None /\
    req_json req = None.
Proof.
  intros s f.
  assert (Hopen : builtin_open "data.csv" (world s) = Some f) by reflexivity.
  split; [exact Hopen |].
  destruct (import_csv_drops_options "tbl1" "data.csv"
              (Some [("delimiter", VStr ";")]) s f Hopen)
    as (req & Hd & _ & _ & Hf & _ & Hdata & Hjson & _).
  exists req; repeat split; assumption.
Defined.

Lemma only_login_mutates_witness :
  let s := start both_credentials [Responded (json_ok (token_body "T"))] in
  is_login BasesList = false /\
  client (final (call BasesList s)) = both_credentials.
Proof.
  intros s; split; [reflexivity |].
  exact (proj1 (only_login_mutates BasesList s) eq_refl).
Defined.

(** [login] does assign the token. *)
Example login_mutates_token :
  let s := start both_credentials [Responded (json_ok (token_body "T"))] in
  client (final (call (AuthLogin "a@b.com" "pw") s)) =
  {| api_key := Some "key-1"; token := VStr "T"; base_url := default_base_url |}.
Proof. reflexivity. Qed.

Lemma transport_failure_propagates_witness :
  let s := start anonymous [Failed Timeout] in
  let op := RecordsGet "t1" "r1" in
  let req := request_kwargs anonymous "GET" "/tables/t1/records/r1" None None None in
  In (req, Failed Timeout) (trace (call op s)) /\
  result (call op s) = Raise (TransportFailure Timeout) /\
  trace (call op s) = [(req, Failed Timeout)].
Proof.
  intros s op req.
  assert (Hin : In (req, Failed Timeout) (trace (call op s)))
    by (left; reflexivity).
  split; [exact Hin |].
  destruct (transport_failure_propagates op s req Timeout Hin) as (Hres & _ & Htr).
  split; assumption.
Defined.


(** ** Further runs on the scripted runtime *)

Lemma url_is_base_url_then_path_witness :
  let s := start anonymous [] in
  let req := request_kwargs anonymous "GET" "/tables/t1/records/r1" None None None in
  In req (dispatched (call (RecordsGet "t1" "r1") s)) /\
  (exists rest, req_url req = (default_base_url ++ "/" ++ rest)%string) /\
  In (req_method req) ["GET"; "POST"; "PATCH"; "DELETE"].
Proof.
  intros s req.
  assert (Hin : In req (dispatched (call (RecordsGet "t1" "r1") s)))
    by (left; reflexivity).
  split; [exact Hin |].
  exact (url_is_base_url_then_path (RecordsGet "t1" "r1") s req Hin).
Defined.

Lemma request_invariants_witness :
  let s := start both_credentials [] in
  let op := BasesCreate [("name", VStr "Projects")] in
  let req := request_kwargs both_credentials "POST" "/bases"
               (Some [("name", VStr "Projects")]) None None in
  In req (dispatched (call op s)) /\
  (carries req "Content-Type" "application/json" <-> req_json req <> None) /\
  req_json req <> Some [] /\
  req_data req = None.
Proof.
  intros s op req.
  assert (Hin : In req (dispatched (call op s))) by (left; reflexivity).
  split; [exact Hin |].
  destruct (request_invariants op s req Hin) as (_ & Hct & _ & Hne & Hdata & _).
  split; [exact Hct |]; split; [exact Hne | exact Hdata].
Defined.

Lemma get_has_no_body_witness :
  let s := start token_only [] in
  let req := request_kwargs token_only "GET" "/bases" None None None in
  In req (dispatched (call BasesList s)) /\
  req_method req = "GET" /\
  req_json req = None /\ req_files req = None /\ lacks req "Content-Type".
Proof.
  intros s req.
  assert (Hin : In req (dispatched (call BasesList s))) by (left; reflexivity).
  split; [exact Hin |]; split; [reflexivity |].
  exact (proj1 (get_has_no_body BasesList s req Hin) eq_refl).
Defined.


(** A path that [open] refuses: [ValueError], and nothing is sent. *)
Lemma one_request_per_call_witness :
  let s := start anonymous [Responded (json_ok (VDict []))] in
  let op := ImportCsv "tbl1" null_path None in
  builtin_open null_path (world s) = None /\
  builtin_open_failure null_path (world s) = OpenValueError /\
  trace (call op s) = [] /\
  result (call op s) = Raise ValueError /\
  final (call op s) = s.
Proof.
  intros s op.
  split; [reflexivity |]; split; [reflexivity |].
  destruct (one_request_per_call op s)
    as [(req & reply & Htr & _)
       | (t & p & o & Hop & _ & Htr & _ & Hval & Hfin)].
  - discriminate Htr.
  - injection Hop as _ <- _.
    split; [exact Htr |]; split; [apply Hval; reflexivity | exact Hfin].
Defined.


Lemma login_is_atomic_witness :
  let s := start token_only [Responded (json_ok (VDict []))] in
  result (Auth.login "a@b.com" "pw" s) = Raise (KeyError "data") /\
  client (final (Auth.login "a@b.com" "pw" s)) = token_only.
Proof.
  intros s.
  assert (Hres : result (Auth.login "a@b.com" "pw" s) = Raise (KeyError "data"))
    by reflexivity.
  split; [exact Hres |].
  exact (proj2 (login_is_atomic "a@b.com" "pw" s) _ Hres).
Defined.

Lemma credentials_over_calls_witness :
  let s := start token_only [Responded no_content; Failed Timeout] in
  let ops := [BasesDelete "b1"; RecordsGet "t1" "r1"] in
  Forall (fun op => is_login op = false) ops /\
  client (fst (call_all ops s)) = token_only.
Proof.
  intros s ops.
  assert (Hops : Forall (fun op => is_login op = false) ops)
    by (repeat constructor).
  split; [exact Hops |].
  exact (proj1 (proj2 (proj2 (credentials_over_calls ops s))) Hops).
Defined.

Lemma api_key_outlives_login_witness :
  let c := __init__ (Some "key-1") None default_base_url in
  let s := start c [Responded (json_ok (token_body "T"))] in
  let ops := [AuthLogin "a@b.com" "pw"] in
  let req := request_kwargs (with_token (VStr "T") c) "GET" "/bases" None None None in
  truthy "key-1" = true /\
  token (client (fst (call_all ops s))) = VStr "T" /\
  In req (dispatched (call BasesList (fst (call_all ops s)))) /\
  carries req "X-API-Key" "key-1" /\ lacks req "Authorization".
Proof.
  intros c s ops req.
  assert (Hin : In req (dispatched (call BasesList (fst (call_all ops s)))))
    by (left; reflexivity).
  split; [reflexivity |]; split; [reflexivity |]; split; [exact Hin |].
  exact (api_key_outlives_login "key-1" None default_base_url
           [Responded (json_ok (token_body "T"))] ops BasesList req eq_refl Hin).
Defined.

Lemma data_is_sent_unless_empty_witness :
  let s := start anonymous [] in
  data_argument (BasesUpdate "b1" []) = Some [] /\
  exists req,
    dispatched (call (BasesUpdate "b1" []) s) = [req] /\
    req_json req = None /\
    lacks req "Content-Type".
Proof.
  intros s; split; [reflexivity |].
  destruct (data_is_sent_unless_empty (BasesUpdate "b1" []) [] s eq_refl)
    as (req & Hd & Hj & Hct & _).
  exists req; split; [exact Hd |]; split; [exact Hj | exact (Hct eq_refl)].
Defined.

Lemma search_options_override_query_witness :
  let s := start anonymous [] in
  let options := Some [("query", VStr "bar"); ("limit", VInt 5)] in
  let op := SearchGlobal "foo" options in
  search_arguments op = Some ("foo", options) /\
  exists req params,
    dispatched (call op s) = [req] /\
    req_params req = Some params /\
    dict_get "query" params = Some (VStr "bar") /\
    dict_get "limit" params = Some (VInt 5).
Proof.
  intros s options op; split; [reflexivity |].
  assert (Hnd : forall o, options = Some o -> NoDup (keys o)).
  { intros o [= <-]; cbn.
    constructor; [intros [E | []]; discriminate E |].
    constructor; [intros [] | constructor]. }
  destruct (search_options_override_query op "foo" options s eq_refl Hnd)
    as (req & params & Hd & _ & _ & Hp & Hget).
  exists req, params; split; [exact Hd |]; split; [exact Hp |].
  split; [exact (Hget "query") | exact (Hget "limit")].
Defined.

Lemma falsy_token_unauthenticates_witness :
  let body := VDict [("data", VDict [("token", VNone)])] in
  let s := start token_only [Responded (json_ok body)] in
  let s1 := final (Auth.login "a@b.com" "pw" s) in
  token (client s) = VStr "T0" /\
  token (client s1) = VNone /\
  forall op req',
    In req' (dispatched (call op s1)) ->
    lacks req' "X-API-Key" /\ lacks req' "Authorization".
Proof.
  intros body s s1; split; [reflexivity |].
  pose (req := request_kwargs token_only "POST" "/auth/login"
                 (Some [("email", VStr "a@b.com"); ("password", VStr "pw")])
                 None None).
  assert (Hin : In (req, Responded (json_ok body))
                   (trace (Auth.login "a@b.com" "pw" s)))
    by (left; reflexivity).
  exact (falsy_token_unauthenticates "a@b.com" "pw" s req (json_ok body) body
           VNone Hin eq_refl eq_refl eq_refl eq_refl eq_refl).
Defined.
